(** * NT guest memory translation (icebox, nt/nt_memory.cpp)

    A shallow embedding of the page-table walker, the software-PTE
    classifier and the prototype resolver of [nt_memory.cpp], together with
    the properties of its specification.

    Unsigned 64-bit values are integers of [Z] with the wrap-around of the
    machine written out ([wrap64]).  The external collaborators (physical
    and virtual reads, the VAD lookup) are functions of a [core_t] record;
    every call to one of them is recorded in a trace. *)

From Stdlib Require Import ZArith List Bool Lia.
From Stdlib Require Import Strings.Byte.
Import ListNotations.
Local Open Scope Z_scope.

(** ** 64-bit arithmetic *)

Definition wrap64 (z : Z) : Z := z mod 2 ^ 64.

(** [~x] on a [uint64_t]. *)
Definition not64 (z : Z) : Z := Z.lxor z (Z.ones 64).

(** [x << n] on a [uint64_t]. *)
Definition shl64 (z n : Z) : Z := wrap64 (Z.shiftl z n).

Definition u64 (z : Z) : Prop := 0 <= z < 2 ^ 64.

(** [constexpr uint64_t mask(int bits)]: [~(~uint64_t(0) << bits)]. *)
Definition mask (bits : Z) : Z := not64 (shl64 (not64 0) bits).

(** ** Address decomposition *)

(** [nt::Os::is_kernel_address]: [!!(ptr & 0xFFF0000000000000)]. *)
Definition is_kernel_address (ptr : Z) : bool :=
  negb (Z.land ptr 0xFFF0000000000000 =? 0).

(** Bits [lo..hi] of a value, as the specification words them. *)
Definition all_bits_set (lo hi v : Z) : Prop :=
  forall i, lo <= i <= hi -> Z.testbit v i = true.

Definition some_bit_set (lo hi v : Z) : Prop :=
  exists i, lo <= i <= hi /\ Z.testbit v i = true.


(** ** Bit-fields

    The unions [MMPTE] and [virt_t] are declared in nt_mmu.hpp, which is
    not among the sources.  An entry is kept as its 64-bit [value]; a member
    of one of the overlaid structures is a bit-field of that value. *)

Record bitfield : Type := { bf_lo : Z; bf_width : Z; bf_signed : bool }.

Definition bf_raw (f : bitfield) (v : Z) : Z :=
  Z.land (Z.shiftr v (bf_lo f)) (Z.ones (bf_width f)).

(** The member converted to [uint64_t]: a signed member is sign-extended. *)
Definition bf_get (f : bitfield) (v : Z) : Z :=
  let r := bf_raw f v in
  if bf_signed f && Z.testbit r (bf_width f - 1)
  then wrap64 (r - 2 ^ bf_width f)
  else r.

(** The member used as a condition. *)
Definition bf_flag (f : bitfield) (v : Z) : bool := negb (bf_get f v =? 0).

(** The members of [MMPTE] the translation uses; where each lies in the
    entry is a parameter of the development. *)
Record mmpte_layout : Type := {
  hard_Valid : bitfield;
  hard_LargePage : bitfield;
  hard_PageFrameNumber : bitfield;
  soft_SwizzleBit : bitfield;
  soft_Prototype : bitfield;
  soft_Transition : bitfield;
  soft_PageFileHigh : bitfield;
  trans_PageFrameNumber : bitfield;
  proto_ProtoAddress : bitfield
}.

(** A frame-number member that is unsigned and at most 52 bits wide, so that
    frame * 4096 + offset stays below 2^64. *)
Definition frame_field (f : bitfield) : bool :=
  negb (bf_signed f) && (0 <=? bf_width f) && (bf_width f <=? 52).

(** Modelled from the spec: [virt_t] of nt_mmu.hpp is missing; the spec
    splits a 64-bit virtual address into four 9-bit table indices and a
    12-bit page offset (top, upper-mid, lower-mid, leaf, offset). *)
Definition virt_offset : bitfield := {| bf_lo := 0;  bf_width := 12; bf_signed := false |}.
Definition virt_pt     : bitfield := {| bf_lo := 12; bf_width := 9;  bf_signed := false |}.
Definition virt_pd     : bitfield := {| bf_lo := 21; bf_width := 9;  bf_signed := false |}.
Definition virt_pdp    : bitfield := {| bf_lo := 30; bf_width := 9;  bf_signed := false |}.
Definition virt_pml4   : bitfield := {| bf_lo := 39; bf_width := 9;  bf_signed := false |}.

(** Modelled from the spec: the macro [PAGE_SIZE] is missing; the spec fixes
    the page size to 4096 bytes. *)
Definition PAGE_SIZE : Z := 4096.

(** [sizeof(MMPTE)], [sizeof(uint64_t)]. *)
Definition sizeof_MMPTE : Z := 8.

(** Modelled from the spec: [read_le64] of endian.hpp is missing; the
    address decomposition of the spec takes the fields from the 64-bit
    address itself, which is what a little-endian load of it yields. *)
Definition read_le64 (v : Z) : Z := v.

(** ** Data *)

Record dtb_t : Type := { val : Z }.

Record proc_t : Type := { proc_id : Z; kdtb : dtb_t }.

Record vm_area_t : Type := { area_id : Z }.

Record span_t : Type := { span_addr : Z; span_size : Z }.

Record ntphy_t : Type := {
  ntphy_ptr : Z;
  ntphy_valid_page : bool;
  ntphy_zero_page : bool
}.

(** The collaborators of the translation (memory.hpp, vm_area.hpp): a read
    answers the bytes it fetched, or [None] when it fails. *)
Record core_t : Type := {
  read_physical : Z -> Z -> option (list byte);
  read_virtual_with_dtb : dtb_t -> Z -> Z -> option (list byte);
  write_physical : Z -> list byte -> Z -> bool;
  vm_area_find : proc_t -> Z -> option vm_area_t;
  vm_area_span : proc_t -> vm_area_t -> option span_t
}.

Record Os : Type := {
  core_ : core_t;
  PhysicalMemoryLimitMask_ : Z;
  kernel_dtb : dtb_t;
  offsets_MMVAD_FirstPrototypePte : Z
}.

(** ** Collaborator calls and their trace *)

Inductive event : Type :=
| ReadPhysical (phy size : Z)
| ReadVirtual (dtb : dtb_t) (virt size : Z)
| WritePhysical (phy : Z) (src : list byte) (size : Z)
| VmAreaFind (proc : proc_t) (ptr : Z)
| VmAreaSpan (proc : proc_t) (area : vm_area_t).

Definition M (A : Type) : Type := (A * list event)%type.

Definition ret {A : Type} (a : A) : M A := (a, []).

Definition bind {A B : Type} (m : M A) (k : A -> M B) : M B :=
  let (a, t) := m in
  let (b, t') := k a in
  (b, t ++ t').

Notation "x <- m ;; k" := (bind m (fun x => k))
  (at level 61, m at next level, right associativity).

Definition result {A : Type} (m : M A) : A := fst m.
Definition trace {A : Type} (m : M A) : list event := snd m.

Definition is_virtual_read (e : event) : bool :=
  match e with ReadVirtual _ _ _ => true | _ => false end.

Definition is_physical_write (e : event) : bool :=
  match e with WritePhysical _ _ _ => true | _ => false end.

Definition virtual_reads (t : list event) : nat :=
  length (filter is_virtual_read t).

Definition memory_read_physical (core : core_t) (phy size : Z)
  : M (option (list byte)) :=
  (read_physical core phy size, [ReadPhysical phy size]).

Definition memory_read_virtual_with_dtb (core : core_t) (dtb : dtb_t)
  (virt size : Z) : M (option (list byte)) :=
  (read_virtual_with_dtb core dtb virt size, [ReadVirtual dtb virt size]).

Definition memory_write_physical (core : core_t) (phy : Z) (src : list byte)
  (size : Z) : M bool :=
  (write_physical core phy src size, [WritePhysical phy src size]).

Definition vm_area_find_call (core : core_t) (proc : proc_t) (ptr : Z)
  : M (option vm_area_t) :=
  (vm_area_find core proc ptr, [VmAreaFind proc ptr]).

Definition vm_area_span_call (core : core_t) (proc : proc_t)
  (area : vm_area_t) : M (option span_t) :=
  (vm_area_span core proc area, [VmAreaSpan proc area]).

(** The 64-bit object a read of [sizeof] 8 bytes leaves in a
    zero-initialised destination: little-endian, as on the host. *)
Fixpoint le_combine (bs : list byte) : Z :=
  match bs with
  | [] => 0
  | b :: t => Z.of_N (Byte.to_N b) + 256 * le_combine t
  end.

Definition load64 (bs : list byte) : Z := le_combine (firstn 8 bs).

(** ** Translation *)

Definition physical_page (pfn offset : Z) : ntphy_t :=
  {| ntphy_ptr := wrap64 (pfn + offset);
     ntphy_valid_page := true;
     ntphy_zero_page := false |}.

Definition page_fault_required : ntphy_t :=
  {| ntphy_ptr := 0; ntphy_valid_page := false; ntphy_zero_page := false |}.

Definition zero_page : ntphy_t :=
  {| ntphy_ptr := 0; ntphy_valid_page := false; ntphy_zero_page := true |}.

Definition vad_mask : Z := 0xFFFFFFFF00000000.

Section Translation.

Variable L : mmpte_layout.

Definition unswizzle_pte (os : Os) (pte : Z) : Z :=
  if negb (PhysicalMemoryLimitMask_ os =? 0)
     && negb (bf_flag (soft_SwizzleBit L) pte)
  then Z.land pte (not64 (PhysicalMemoryLimitMask_ os))
  else pte.

Definition prototype_pte_to_physical (os : Os) (ptr : Z) (pte : Z) : ntphy_t :=
  let virt := read_le64 ptr in
  if bf_flag (hard_Valid L) pte then
    physical_page (wrap64 (bf_get (hard_PageFrameNumber L) pte * PAGE_SIZE))
                  (bf_get virt_offset virt)
  else
    let pte := unswizzle_pte os pte in
    if bf_flag (soft_Prototype L) pte then page_fault_required
    else if bf_flag (soft_Transition L) pte then
      physical_page (wrap64 (bf_get (trans_PageFrameNumber L) pte * PAGE_SIZE))
                    (bf_get virt_offset virt)
    else if bf_get (soft_PageFileHigh L) pte =? 0 then zero_page
    else page_fault_required.

(** The local [pte_ptr] of [vad_pte_to_physical]. *)
Definition vad_pte_ptr (first_proto_pte ptr : Z) (area_span : span_t) : Z :=
  wrap64 (first_proto_pte
          + wrap64 ((wrap64 (ptr - span_addr area_span) / PAGE_SIZE)
                    * sizeof_MMPTE)).

Definition vad_pte_to_physical (os : Os) (ptr : Z) (proc : option proc_t)
  : M (option ntphy_t) :=
  match proc with
  | None =>
      if is_kernel_address ptr then ret None
      else ret (Some page_fault_required)
  | Some proc =>
      area <- vm_area_find_call (core_ os) proc ptr ;;
      match area with
      | None => ret None
      | Some area =>
          area_span <- vm_area_span_call (core_ os) proc area ;;
          match area_span with
          | None => ret None
          | Some area_span =>
              ok <- memory_read_virtual_with_dtb (core_ os) (kdtb proc)
                      (wrap64 (area_id area
                               + offsets_MMVAD_FirstPrototypePte os))
                      8 ;;
              match ok with
              | None => ret None
              | Some bytes =>
                  let first_proto_pte := load64 bytes in
                  let pte_ptr := vad_pte_ptr first_proto_pte ptr area_span in
                  ok <- memory_read_virtual_with_dtb (core_ os) (kdtb proc)
                          pte_ptr 8 ;;
                  match ok with
                  | None => ret None
                  | Some bytes =>
                      ret (Some (prototype_pte_to_physical os ptr
                                   (load64 bytes)))
                  end
              end
          end
      end
  end.

Definition pte_to_physical (os : Os) (ptr : Z) (proc : option proc_t)
  (pte : Z) : M (option ntphy_t) :=
  let virt := read_le64 ptr in
  if bf_flag (hard_Valid L) pte then
    ret (Some (physical_page
                 (wrap64 (bf_get (hard_PageFrameNumber L) pte * PAGE_SIZE))
                 (bf_get virt_offset virt)))
  else
    let pte := unswizzle_pte os pte in
    if bf_flag (soft_Prototype L) pte then
      if Z.land (bf_get (proto_ProtoAddress L) pte) vad_mask =? vad_mask then
        vad_pte_to_physical os ptr proc
      else
        let addr := bf_get (proto_ProtoAddress L) pte in
        ok <- memory_read_virtual_with_dtb (core_ os) (kernel_dtb os)
                addr sizeof_MMPTE ;;
        match ok with
        | None => ret (Some page_fault_required)
        | Some bytes =>
            ret (Some (prototype_pte_to_physical os ptr (load64 bytes)))
        end
    else if bf_flag (soft_Transition L) pte then
      ret (Some (physical_page
                   (wrap64 (bf_get (trans_PageFrameNumber L) pte * PAGE_SIZE))
                   (bf_get virt_offset virt)))
    else if pte =? 0 then vad_pte_to_physical os ptr proc
    else if bf_get (soft_PageFileHigh L) pte =? 0 then ret (Some zero_page)
    else ret (Some page_fault_required).

(** ** Page-table walk *)

Definition pml4e_ptr (virt : Z) (dtb : dtb_t) : Z :=
  let pml4e_base := Z.land (val dtb) (shl64 (mask 40) 12) in
  wrap64 (pml4e_base + wrap64 (bf_get virt_pml4 virt * 8)).

Definition read_pml4e (os : Os) (virt : Z) (dtb : dtb_t) : M (option Z) :=
  ok <- memory_read_physical (core_ os) (pml4e_ptr virt dtb) sizeof_MMPTE ;;
  match ok with
  | None => ret None
  | Some bytes =>
      let pml4e := load64 bytes in
      if negb (bf_flag (hard_Valid L) pml4e) then ret None
      else ret (Some pml4e)
  end.

Definition pdpe_ptr (virt : Z) (pml4e : Z) : Z :=
  wrap64 (wrap64 (bf_get (hard_PageFrameNumber L) pml4e * PAGE_SIZE)
          + wrap64 (bf_get virt_pdp virt * sizeof_MMPTE)).

Definition read_pdpe (os : Os) (virt : Z) (pml4e : Z) : M (option Z) :=
  ok <- memory_read_physical (core_ os) (pdpe_ptr virt pml4e) sizeof_MMPTE ;;
  match ok with
  | None => ret None
  | Some bytes =>
      let pdpe := load64 bytes in
      if negb (bf_flag (hard_Valid L) pdpe) then ret None
      else ret (Some pdpe)
  end.

Definition pte_ptr (virt : Z) (pde : Z) : Z :=
  wrap64 (wrap64 (bf_get (hard_PageFrameNumber L) pde * PAGE_SIZE)
          + wrap64 (bf_get virt_pt virt * sizeof_MMPTE)).

Definition read_pte (os : Os) (virt : Z) (pde : Z) : M (option Z) :=
  ok <- memory_read_physical (core_ os) (pte_ptr virt pde) sizeof_MMPTE ;;
  match ok with
  | None => ret None
  | Some bytes => ret (Some (load64 bytes))
  end.

Definition pde_ptr (virt : Z) (pdpe : Z) : Z :=
  wrap64 (wrap64 (bf_get (hard_PageFrameNumber L) pdpe * PAGE_SIZE)
          + wrap64 (bf_get virt_pd virt * sizeof_MMPTE)).

Definition read_pde (os : Os) (virt : Z) (pdpe : Z) : M (option Z) :=
  ok <- memory_read_physical (core_ os) (pde_ptr virt pdpe) sizeof_MMPTE ;;
  match ok with
  | None => ret None
  | Some bytes => ret (Some (load64 bytes))
  end.

Definition virtual_to_physical (os : Os) (ptr : Z) (proc : option proc_t)
  (dtb : dtb_t) : M (option ntphy_t) :=
  let virt := read_le64 ptr in
  pml4e <- read_pml4e os virt dtb ;;
  match pml4e with
  | None => ret None
  | Some pml4e =>
      pdpe <- read_pdpe os virt pml4e ;;
      match pdpe with
      | None => ret None
      | Some pdpe =>
          if bf_flag (hard_LargePage L) pdpe then
            (* 1g page *)
            let offset := Z.land ptr (mask 30) in
            let base := Z.land pdpe (shl64 (mask 22) 30) in
            ret (Some (physical_page base offset))
          else
            pde <- read_pde os virt pdpe ;;
            match pde with
            | None => ret None
            | Some pde =>
                if negb (bf_flag (hard_Valid L) pde) then
                  pte_to_physical os ptr proc pde
                else if bf_flag (hard_LargePage L) pde then
                  (* 2mb page *)
                  let offset := Z.land ptr (mask 21) in
                  let base := Z.land pde (shl64 (mask 31) 21) in
                  ret (Some (physical_page base offset))
                else
                  pte <- read_pte os virt pde ;;
                  match pte with
                  | None => ret None
                  | Some pte => pte_to_physical os ptr proc pte
                  end
            end
      end
  end.

(** ** Top-level API *)

(** [is_zero]: the loop over [ptr[0 .. size-1]], [i] being the index the
    loop has reached.  The source buffer holds [size] bytes; past its end
    the model reads zero. *)
Fixpoint is_zero_from (ptr : list byte) (i : nat) (remaining : nat) : bool :=
  match remaining with
  | O => true
  | S r =>
      if negb (Byte.eqb (nth i ptr x00) x00) then false
      else is_zero_from ptr (S i) r
  end.

Definition is_zero (vptr : list byte) (size : Z) : bool :=
  is_zero_from vptr 0 (Z.to_nat size).

(** [nt::Os::write_page]. *)
Definition write_page (os : Os) (ptr : Z) (src : list byte)
  (proc : option proc_t) (dtb : dtb_t) : M bool :=
  nt_phy <- virtual_to_physical os ptr proc dtb ;;
  match nt_phy with
  | None => ret false
  | Some nt_phy =>
      if ntphy_valid_page nt_phy then
        memory_write_physical (core_ os) (ntphy_ptr nt_phy) src PAGE_SIZE
      else if ntphy_zero_page nt_phy then ret (is_zero src PAGE_SIZE)
      else ret false
  end.

(** [nt::Os::virtual_to_physical]. *)
Definition Os_virtual_to_physical (os : Os) (proc : option proc_t)
  (dtb : dtb_t) (ptr : Z) : M (option Z) :=
  nt_phy <- virtual_to_physical os ptr proc dtb ;;
  match nt_phy with
  | None => ret None
  | Some nt_phy =>
      if ntphy_valid_page nt_phy then ret (Some (ntphy_ptr nt_phy))
      else ret None
  end.

(** [nt::Os::read_page]: the page the call leaves in [dst] when it answers
    true, [None] when it answers false. *)
Definition read_page (os : Os) (ptr : Z) (proc : option proc_t)
  (dtb : dtb_t) : M (option (list byte)) :=
  nt_phy <- virtual_to_physical os ptr proc dtb ;;
  match nt_phy with
  | None => ret None
  | Some nt_phy =>
      if ntphy_zero_page nt_phy then
        ret (Some (repeat x00 (Z.to_nat PAGE_SIZE)))
      else if ntphy_valid_page nt_phy then
        memory_read_physical (core_ os) (ntphy_ptr nt_phy) PAGE_SIZE
      else ret None
  end.

End Translation.

(** ** Vocabulary of the statements *)

(** The entry a table holds at a physical address, when the read succeeds. *)
Definition entry_at (os : Os) (phy : Z) : option Z :=
  option_map load64 (read_physical (core_ os) phy sizeof_MMPTE).

(** A non-present entry whose prototype flag is set when the classifier
    looks at it, that is after the unswizzle step. *)
Definition prototype_entry (L : mmpte_layout) (os : Os) (pte : Z) : bool :=
  negb (bf_flag (hard_Valid L) pte)
  && bf_flag (soft_Prototype L) (unswizzle_pte L os pte).

(** The prototype-target address the classifier reads from such an entry. *)
Definition proto_target (L : mmpte_layout) (os : Os) (pte : Z) : Z :=
  bf_get (proto_ProtoAddress L) (unswizzle_pte L os pte).

(** What a trace holds: at most [n] collaborator calls, [v] of them virtual
    reads, and no physical write. *)
Definition no_physical_write (t : list event) : bool :=
  forallb (fun e => negb (is_physical_write e)) t.

Definition within (n v : nat) (t : list event) : Prop :=
  (length t <= n)%nat /\ (virtual_reads t <= v)%nat
  /\ no_physical_write t = true.

(** The address of the first-prototype-entry member of a region's
    descriptor. *)
Definition first_proto_pte_field (os : Os) (area : vm_area_t) : Z :=
  wrap64 (area_id area + offsets_MMVAD_FirstPrototypePte os).

Section Walks.

Variable L : mmpte_layout.
Variable os : Os.
Variable ptr : Z.
Variable dtb : dtb_t.

Definition present_at (phy e : Z) : Prop :=
  entry_at os phy = Some e /\ bf_flag (hard_Valid L) e = true.

(** The walk reaches the software classifier with entry [pte], after the
    physical reads [reads]: either the lower-mid entry is not present and is
    classified itself, or the leaf entry is read and classified. *)
Inductive hands_to_classifier : Z -> list event -> Prop :=
| via_pde (pml4e pdpe pde : Z) :
    present_at (pml4e_ptr ptr dtb) pml4e ->
    present_at (pdpe_ptr L ptr pml4e) pdpe ->
    bf_flag (hard_LargePage L) pdpe = false ->
    entry_at os (pde_ptr L ptr pdpe) = Some pde ->
    bf_flag (hard_Valid L) pde = false ->
    hands_to_classifier pde
      [ReadPhysical (pml4e_ptr ptr dtb) 8;
       ReadPhysical (pdpe_ptr L ptr pml4e) 8;
       ReadPhysical (pde_ptr L ptr pdpe) 8]
| via_pte (pml4e pdpe pde pte : Z) :
    present_at (pml4e_ptr ptr dtb) pml4e ->
    present_at (pdpe_ptr L ptr pml4e) pdpe ->
    bf_flag (hard_LargePage L) pdpe = false ->
    present_at (pde_ptr L ptr pdpe) pde ->
    bf_flag (hard_LargePage L) pde = false ->
    entry_at os (pte_ptr L ptr pde) = Some pte ->
    hands_to_classifier pte
      [ReadPhysical (pml4e_ptr ptr dtb) 8;
       ReadPhysical (pdpe_ptr L ptr pml4e) 8;
       ReadPhysical (pde_ptr L ptr pdpe) 8;
       ReadPhysical (pte_ptr L ptr pde) 8].

(** The table chain of a 4 KiB page: top, upper-mid and lower-mid entries
    present and not large, and [pte] the leaf entry. *)
Definition leaf_chain (pte : Z) : Prop :=
  exists pml4e pdpe pde,
    present_at (pml4e_ptr ptr dtb) pml4e /\
    present_at (pdpe_ptr L ptr pml4e) pdpe /\
    bf_flag (hard_LargePage L) pdpe = false /\
    present_at (pde_ptr L ptr pdpe) pde /\
    bf_flag (hard_LargePage L) pde = false /\
    entry_at os (pte_ptr L ptr pde) = Some pte.

(** The walk meets a present large-page entry [e] mapping [2^bits] bytes,
    after the physical reads [reads]. *)
Inductive large_page_walk : Z -> Z -> list event -> Prop :=
| large_1g (pml4e pdpe : Z) :
    present_at (pml4e_ptr ptr dtb) pml4e ->
    present_at (pdpe_ptr L ptr pml4e) pdpe ->
    bf_flag (hard_LargePage L) pdpe = true ->
    large_page_walk pdpe 30
      [ReadPhysical (pml4e_ptr ptr dtb) 8;
       ReadPhysical (pdpe_ptr L ptr pml4e) 8]
| large_2m (pml4e pdpe pde : Z) :
    present_at (pml4e_ptr ptr dtb) pml4e ->
    present_at (pdpe_ptr L ptr pml4e) pdpe ->
    bf_flag (hard_LargePage L) pdpe = false ->
    present_at (pde_ptr L ptr pdpe) pde ->
    bf_flag (hard_LargePage L) pde = true ->
    large_page_walk pde 21
      [ReadPhysical (pml4e_ptr ptr dtb) 8;
       ReadPhysical (pdpe_ptr L ptr pml4e) 8;
       ReadPhysical (pde_ptr L ptr pdpe) 8].

End Walks.

(** A table entry that cannot be used: the read fails, or the entry read
    has its present bit clear. *)
Definition absent_at (L : mmpte_layout) (os : Os) (phy : Z) : Prop :=
  match entry_at os phy with
  | None => True
  | Some e => bf_flag (hard_Valid L) e = false
  end.

(** The three states of a translation result: resolved (a 64-bit address
    that keeps the page offset of [ptr]), demand-zero, pagefile-required. *)
Definition tri_state (ptr : Z) (r : ntphy_t) : Prop :=
  (ntphy_valid_page r = true /\ ntphy_zero_page r = false
   /\ 0 <= ntphy_ptr r < 2 ^ 64
   /\ ntphy_ptr r mod 4096 = ptr mod 4096)
  \/ r = zero_page
  \/ r = page_fault_required.

(** The calls the descriptor branch may make for process [p]: lookups, and
    virtual reads under the process's own kernel table base. *)
Definition descriptor_call (p : proc_t) (e : event) : Prop :=
  match e with
  | VmAreaFind q _ => q = p
  | VmAreaSpan q _ => q = p
  | ReadVirtual d _ size => d = kdtb p /\ size = 8
  | ReadPhysical _ _ => False
  | WritePhysical _ _ _ => False
  end.

(** ** Synthetic guest images

    Concrete sessions over an in-memory image, on which the statements are
    run: tables and pool as lists of (address, 64-bit entry). *)

Module Synthetic.

(** The x64 layout of the NT entry: Valid bit 0, SwizzleBit bit 4, LargePage
    bit 7, Prototype bit 10, Transition bit 11, frame number bits 12..47,
    PageFileHigh bits 32..63, ProtoAddress the signed bits 16..63. *)
Definition bit (n : Z) : bitfield :=
  {| bf_lo := n; bf_width := 1; bf_signed := false |}.

Definition x64 : mmpte_layout :=
  {| hard_Valid := bit 0;
     hard_LargePage := bit 7;
     hard_PageFrameNumber := {| bf_lo := 12; bf_width := 36; bf_signed := false |};
     soft_SwizzleBit := bit 4;
     soft_Prototype := bit 10;
     soft_Transition := bit 11;
     soft_PageFileHigh := {| bf_lo := 32; bf_width := 32; bf_signed := false |};
     trans_PageFrameNumber := {| bf_lo := 12; bf_width := 36; bf_signed := false |};
     proto_ProtoAddress := {| bf_lo := 16; bf_width := 48; bf_signed := true |} |}.

Definition byte_of_Z (z : Z) : byte :=
  match Byte.of_N (Z.to_N (z mod 256)) with
  | Some b => b
  | None => x00
  end.

Fixpoint le_split (n : nat) (v : Z) : list byte :=
  match n with
  | O => []
  | S n' => byte_of_Z v :: le_split n' (v / 256)
  end.

Definition image : Type := list (Z * Z).

Fixpoint image_entry (img : image) (a : Z) : option Z :=
  match img with
  | [] => None
  | (a', v) :: rest => if a' =? a then Some v else image_entry rest a
  end.

Definition image_read (img : image) (a size : Z) : option (list byte) :=
  if size =? 8 then option_map (le_split 8) (image_entry img a) else None.

(** A session: [phys] is physical memory, [virt] the virtual memory seen
    through each directory-table base, [areas] the regions (id, start, size)
    of every process. *)
Definition area_record : Type := (Z * Z * Z)%type.

Fixpoint find_area (areas : list area_record) (a : Z) : option vm_area_t :=
  match areas with
  | [] => None
  | (i, start, sz) :: rest =>
      if (start <=? a) && (a <? start + sz) then Some {| area_id := i |}
      else find_area rest a
  end.

Fixpoint area_span (areas : list area_record) (i : Z) : option span_t :=
  match areas with
  | [] => None
  | (i', start, sz) :: rest =>
      if i' =? i then Some {| span_addr := start; span_size := sz |}
      else area_span rest i
  end.

Definition session (phys : image) (virt : Z -> image)
  (areas : list area_record) (limit_mask : Z) (kdtb_val : Z) : Os :=
  {| core_ :=
       {| read_physical := image_read phys;
          read_virtual_with_dtb := fun d => image_read (virt (val d));
          write_physical := fun _ _ _ => true;
          vm_area_find := fun _ a => find_area areas a;
          vm_area_span := fun _ ar => area_span areas (area_id ar) |};
     PhysicalMemoryLimitMask_ := limit_mask;
     kernel_dtb := {| val := kdtb_val |};
     offsets_MMVAD_FirstPrototypePte := 0x48 |}.

(** Four tables at 0x1000, 0x2000, 0x3000 and 0x4000 mapping the address
    0x1234 (indices 0, 0, 0, 1; offset 0x234) through leaf entry [leaf]. *)
Definition tables (leaf : Z) : image :=
  [ (0x1000, 0x2001); (0x2000, 0x3001); (0x3000, 0x4001); (0x4008, leaf) ].

(** The same chain for the kernel address 0xFFFF800000001234 (indices
    0x100, 0, 0, 1). *)
Definition kernel_tables (leaf : Z) : image :=
  [ (0x1800, 0x2001); (0x2000, 0x3001); (0x3000, 0x4001); (0x4008, leaf) ].

Definition root : dtb_t := {| val := 0x1000 |}.

Definition no_virt : Z -> image := fun _ => [].

(** A 1 GiB page at the upper-mid level, and a 2 MiB page at the lower-mid
    level. *)
Definition tables_1g : image :=
  [ (0x1000, 0x2001); (0x2000, 0x40000081) ].

Definition tables_2m : image :=
  [ (0x1000, 0x2001); (0x2000, 0x3001); (0x3000, 0x00600081) ].

(** Kernel pool seen through the kernel directory-table base 0x1AA000: the
    entry at 0xFFFFA00000001000 is zero, the entry at 0xFFFFA00000002000
    redirects to the pool again. *)
Definition pool : Z -> image := fun d =>
  if d =? 0x1AA000 then
    [ (0xFFFFA00000001000, 0); (0xFFFFA00000002000, 0xA000000010000400) ]
  else [].

(** Entries with the prototype flag: target 0xFFFFA00000001000, target
    0xFFFFA00000002000, target 0xFFFFA00000003000 (unreadable), and the
    descriptor sentinel 0xFFFFFFFF00000000. *)
Definition proto_to_zero : Z := 0xA000000010000400.
Definition proto_to_proto : Z := 0xA000000020000400.
Definition proto_unreadable : Z := 0xA000000030000400.
Definition proto_vad : Z := 0xFFFFFFFF00000400.

(** A process with one region, [0x1000, 0x3000), whose descriptor lies at
    0xFFFFB00000000100.  In [descriptors] the first-prototype-entry member
    (at +0x48) is readable and names an array at 0xFFFFC00000000000 that is
    not; in [descriptors_full] the array is readable too. *)
Definition proc4 : proc_t := {| proc_id := 4; kdtb := {| val := 0x1AA000 |} |}.

Definition region : list area_record := [ (0xFFFFB00000000100, 0x1000, 0x2000) ].

Definition descriptors : Z -> image := fun d =>
  if d =? 0x1AA000 then [ (0xFFFFB00000000148, 0xFFFFC00000000000) ] else [].

Definition descriptors_full : Z -> image := fun d =>
  if d =? 0x1AA000 then
    [ (0xFFFFB00000000148, 0xFFFFC00000000000);
      (0xFFFFC00000000000, 0xA000000010000400) ]
  else [].

(** Source pages: all zero, and zero but for one byte. *)
Definition zero_buffer : list byte := repeat x00 (Z.to_nat PAGE_SIZE).

Definition dirty_buffer : list byte :=
  repeat x00 4000 ++ [x01] ++ repeat x00 95.

(** Broken chains: the upper-mid entry not present; the lower-mid table
    unreadable; the leaf table unreadable; a lower-mid entry that is not
    present and holds a transition entry for frame 5. *)
Definition tables_no_pdpe : image := [ (0x1000, 0x2001); (0x2000, 0x3000) ].

Definition tables_no_pd : image := [ (0x1000, 0x2001); (0x2000, 0x3001) ].

Definition tables_no_pt : image :=
  [ (0x1000, 0x2001); (0x2000, 0x3001); (0x3000, 0x4001) ].

Definition tables_soft_pde : image :=
  [ (0x1000, 0x2001); (0x2000, 0x3001); (0x3000, 0x5800) ].

(** A session whose regions have no span, and whose physical pages read as
    4096 bytes of 0x2a. *)
Definition orphan_session : Os :=
  {| core_ :=
       {| read_physical := fun _ _ => None;
          read_virtual_with_dtb := fun _ _ _ => None;
          write_physical := fun _ _ _ => true;
          vm_area_find := fun _ _ => Some {| area_id := 7 |};
          vm_area_span := fun _ _ => None |};
     PhysicalMemoryLimitMask_ := 0;
     kernel_dtb := {| val := 0x1AA000 |};
     offsets_MMVAD_FirstPrototypePte := 0x48 |}.

Definition paged_session (phys : image) : Os :=
  {| core_ :=
       {| read_physical := fun a size =>
            if size =? 8 then image_read phys a size
            else Some (repeat "*"%byte (Z.to_nat size));
          read_virtual_with_dtb := fun _ _ _ => None;
          write_physical := fun a _ _ => a =? 0x5000;
          vm_area_find := fun _ _ => None;
          vm_area_span := fun _ _ => None |};
     PhysicalMemoryLimitMask_ := 0;
     kernel_dtb := {| val := 0x1AA000 |};
     offsets_MMVAD_FirstPrototypePte := 0x48 |}.

End Synthetic.

(** ** Theorems *)

(** *** Masks *)

Lemma testbit_field_mask (k lo i : Z) :
  0 <= k -> 0 <= lo ->
  Z.testbit (Z.shiftl (Z.ones k) lo) i = (lo <=? i) && (i <? lo + k).
Proof.
  intros Hk Hlo.
  destruct (Z.ltb_spec i 0) as [Hneg | Hpos].
  - rewrite Z.testbit_neg_r by lia.
    symmetry. apply andb_false_iff. left. apply Z.leb_gt. lia.
  - rewrite Z.shiftl_spec by lia.
    destruct (Z.leb_spec lo i) as [Hle | Hgt]; simpl.
    + rewrite Z.testbit_ones by lia.
      destruct (Z.leb_spec 0 (i - lo)); [ simpl | lia ].
      destruct (Z.ltb_spec (i - lo) k); destruct (Z.ltb_spec i (lo + k));
        try reflexivity; lia.
    + apply Z.testbit_neg_r. lia.
Qed.

Lemma land_field_mask (e k lo : Z) :
  0 <= k -> 0 <= lo ->
  Z.land e (Z.shiftl (Z.ones k) lo) = ((e / 2 ^ lo) mod 2 ^ k) * 2 ^ lo.
Proof.
  intros Hk Hlo.
  rewrite <- Z.shiftl_mul_pow2, <- Z.land_ones, <- Z.shiftr_div_pow2 by lia.
  apply Z.bits_inj'. intros n Hn.
  rewrite Z.land_spec, testbit_field_mask by lia.
  rewrite Z.shiftl_spec by lia.
  destruct (Z.leb_spec lo n) as [Hle | Hgt]; simpl.
  - rewrite Z.land_spec, Z.shiftr_spec, Z.testbit_ones by lia.
    replace (n - lo + lo) with n by lia.
    destruct (Z.leb_spec 0 (n - lo)); [ simpl | lia ].
    destruct (Z.ltb_spec (n - lo) k); destruct (Z.ltb_spec n (lo + k));
      simpl; try reflexivity; exfalso; lia.
  - rewrite (Z.testbit_neg_r _ (n - lo)) by lia. apply andb_false_r.
Qed.

Lemma land_field_mask_bounds (e k lo : Z) :
  0 <= k -> 0 <= lo ->
  0 <= Z.land e (Z.shiftl (Z.ones k) lo) <= 2 ^ (lo + k) - 2 ^ lo /\
  Z.land e (Z.shiftl (Z.ones k) lo) mod 2 ^ lo = 0.
Proof.
  intros Hk Hlo. rewrite land_field_mask by lia.
  assert (Hlo2 : 0 < 2 ^ lo) by (apply Z.pow_pos_nonneg; lia).
  assert (Hk2 : 0 < 2 ^ k) by (apply Z.pow_pos_nonneg; lia).
  pose proof (Z.mod_pos_bound (e / 2 ^ lo) (2 ^ k) Hk2) as Hm.
  rewrite Z.pow_add_r by lia.
  split; [ nia | apply Z.mod_mul; lia ].
Qed.

Lemma bf_raw_bounds (f : bitfield) (v : Z) :
  0 <= bf_width f -> 0 <= bf_raw f v < 2 ^ bf_width f.
Proof.
  intros Hw. unfold bf_raw. rewrite Z.land_ones by lia.
  apply Z.mod_pos_bound. apply Z.pow_pos_nonneg; lia.
Qed.

Lemma frame_field_bounds (f : bitfield) (v : Z) :
  frame_field f = true -> 0 <= bf_get f v < 2 ^ 52.
Proof.
  unfold frame_field. intros H.
  apply andb_true_iff in H. destruct H as [H Hle].
  apply andb_true_iff in H. destruct H as [Hs Hge].
  apply negb_true_iff in Hs. apply Z.leb_le in Hge, Hle.
  unfold bf_get. rewrite Hs. simpl.
  pose proof (bf_raw_bounds f v Hge) as Hr.
  assert (2 ^ bf_width f <= 2 ^ 52) by (apply Z.pow_le_mono_r; lia).
  lia.
Qed.

Lemma virt_offset_low12 (ptr : Z) :
  bf_get virt_offset (read_le64 ptr) = ptr mod 2 ^ 12.
Proof.
  unfold bf_get, bf_raw, read_le64. simpl bf_signed. simpl andb. cbv iota.
  simpl bf_lo. simpl bf_width. rewrite Z.shiftr_0_r.
  apply Z.land_ones. lia.
Qed.

Lemma bf_fields_of_zero (f : bitfield) : bf_get f 0 = 0 /\ bf_flag f 0 = false.
Proof.
  assert (Hr : bf_raw f 0 = 0).
  { unfold bf_raw. rewrite Z.shiftr_0_l. apply Z.land_0_l. }
  assert (Hg : bf_get f 0 = 0).
  { unfold bf_get. rewrite Hr, Z.bits_0, andb_false_r. reflexivity. }
  split; [ exact Hg | unfold bf_flag; rewrite Hg; reflexivity ].
Qed.

(** *** The trace monad *)

Lemma bind_run {A B : Type} (m : M A) (k : A -> M B) :
  bind m k = (result (k (result m)), trace m ++ trace (k (result m))).
Proof.
  unfold bind, result, trace. destruct m as [a t]. simpl.
  destruct (k a) as [b t']. reflexivity.
Qed.

Lemma run_eta {A : Type} (m : M A) : m = (result m, trace m).
Proof. destruct m; reflexivity. Qed.

(** *** Level reads *)

Section LevelReads.

Variable L : mmpte_layout.
Variable os : Os.

Lemma entry_at_read (phy e : Z) :
  entry_at os phy = Some e ->
  exists bytes,
    read_physical (core_ os) phy sizeof_MMPTE = Some bytes /\ load64 bytes = e.
Proof.
  unfold entry_at. intros H.
  destruct (read_physical (core_ os) phy sizeof_MMPTE) as [bytes |];
    simpl in H; [ | discriminate ].
  exists bytes. split; [ reflexivity | congruence ].
Qed.

Lemma read_pml4e_present (virt : Z) (dtb : dtb_t) (e : Z) :
  present_at L os (pml4e_ptr virt dtb) e ->
  read_pml4e L os virt dtb = (Some e, [ReadPhysical (pml4e_ptr virt dtb) 8]).
Proof.
  intros [Hr Hv]. apply entry_at_read in Hr. destruct Hr as [bytes [Hr He]].
  unfold read_pml4e, memory_read_physical. rewrite bind_run.
  unfold result, trace. simpl fst. simpl snd.
  rewrite Hr, He, Hv. reflexivity.
Qed.

Lemma read_pdpe_present (virt pml4e e : Z) :
  present_at L os (pdpe_ptr L virt pml4e) e ->
  read_pdpe L os virt pml4e
  = (Some e, [ReadPhysical (pdpe_ptr L virt pml4e) 8]).
Proof.
  intros [Hr Hv]. apply entry_at_read in Hr. destruct Hr as [bytes [Hr He]].
  unfold read_pdpe, memory_read_physical. rewrite bind_run.
  unfold result, trace. simpl fst. simpl snd.
  rewrite Hr, He, Hv. reflexivity.
Qed.

Lemma read_pde_some (virt pdpe e : Z) :
  entry_at os (pde_ptr L virt pdpe) = Some e ->
  read_pde L os virt pdpe = (Some e, [ReadPhysical (pde_ptr L virt pdpe) 8]).
Proof.
  intros Hr. apply entry_at_read in Hr. destruct Hr as [bytes [Hr He]].
  unfold read_pde, memory_read_physical. rewrite bind_run.
  unfold result, trace. simpl fst. simpl snd.
  rewrite Hr, He. reflexivity.
Qed.

Lemma read_pte_some (virt pde e : Z) :
  entry_at os (pte_ptr L virt pde) = Some e ->
  read_pte L os virt pde = (Some e, [ReadPhysical (pte_ptr L virt pde) 8]).
Proof.
  intros Hr. apply entry_at_read in Hr. destruct Hr as [bytes [Hr He]].
  unfold read_pte, memory_read_physical. rewrite bind_run.
  unfold result, trace. simpl fst. simpl snd.
  rewrite Hr, He. reflexivity.
Qed.

(** The walk that reaches the classifier is the classifier's run after the
    table reads. *)
Lemma walk_classifies (ptr : Z) (proc : option proc_t) (dtb : dtb_t)
  (pte : Z) (reads : list event) :
  hands_to_classifier L os ptr dtb pte reads ->
  virtual_to_physical L os ptr proc dtb
  = (result (pte_to_physical L os ptr proc pte),
     reads ++ trace (pte_to_physical L os ptr proc pte)).
Proof.
  intros Hw. unfold virtual_to_physical, read_le64.
  destruct Hw as [pml4e pdpe pde H1 H2 Hl2 H3 Hv3
                 | pml4e pdpe pde pte H1 H2 Hl2 H3 Hl3 H4].
  - rewrite (read_pml4e_present _ _ _ H1), bind_run. unfold result, trace.
    simpl fst. simpl snd.
    rewrite (read_pdpe_present _ _ _ H2), bind_run. unfold result, trace.
    simpl fst. simpl snd. rewrite Hl2.
    rewrite (read_pde_some _ _ _ H3), bind_run. unfold result, trace.
    simpl fst. simpl snd. rewrite Hv3. reflexivity.
  - rewrite (read_pml4e_present _ _ _ H1), bind_run. unfold result, trace.
    simpl fst. simpl snd.
    rewrite (read_pdpe_present _ _ _ H2), bind_run. unfold result, trace.
    simpl fst. simpl snd. rewrite Hl2.
    destruct H3 as [H3 Hv3].
    rewrite (read_pde_some _ _ _ H3), bind_run. unfold result, trace.
    simpl fst. simpl snd. rewrite Hv3, Hl3. simpl negb. cbv iota.
    rewrite (read_pte_some _ _ _ H4), bind_run. unfold result, trace.
    simpl fst. simpl snd. reflexivity.
Qed.

Lemma leaf_chain_hands (ptr : Z) (dtb : dtb_t) (pte : Z) :
  leaf_chain L os ptr dtb pte ->
  exists reads, hands_to_classifier L os ptr dtb pte reads.
Proof.
  intros [pml4e [pdpe [pde [H1 [H2 [Hl2 [H3 [Hl3 H4]]]]]]]].
  eexists. eapply via_pte; eassumption.
Qed.

End LevelReads.



(** *** Address classification *)

Lemma kernel_mask_testbit (i : Z) :
  Z.testbit 0xFFF0000000000000 i = (52 <=? i) && (i <=? 63).
Proof.
  change 0xFFF0000000000000 with (Z.shiftl (Z.ones 12) 52).
  rewrite testbit_field_mask by lia.
  f_equal. destruct (Z.ltb_spec i (52 + 12)); destruct (Z.leb_spec i 63);
    try reflexivity; exfalso; lia.
Qed.

(** C3 (as the code has it): the kernel-address classifier answers true
    exactly when at least one of bits 52..63 of the value is set. *)
Theorem is_kernel_address_some_bit (ptr : Z) :
  is_kernel_address ptr = true <-> some_bit_set 52 63 ptr.
Proof.
  unfold is_kernel_address, some_bit_set. rewrite negb_true_iff, Z.eqb_neq.
  split.
  - intros Hnz.
    assert (Hex : ~ (forall n, 0 <= n ->
              Z.testbit (Z.land ptr 0xFFF0000000000000) n = Z.testbit 0 n)).
    { intros Hall. apply Hnz. apply Z.bits_inj'. exact Hall. }
    (* search the twelve candidate positions *)
    assert (Hdec : forall k : nat,
      (exists i, 52 <= i < 52 + Z.of_nat k /\ Z.testbit ptr i = true) \/
      (forall i, 52 <= i < 52 + Z.of_nat k -> Z.testbit ptr i = false)).
    { induction k as [| k IH].
      - right. intros i Hi. lia.
      - destruct IH as [[i [Hi Hb]] | IH].
        + left. exists i. split; [ lia | exact Hb ].
        + destruct (Z.testbit ptr (52 + Z.of_nat k)) eqn:Hk.
          * left. exists (52 + Z.of_nat k). split; [ lia | exact Hk ].
          * right. intros i Hi.
            destruct (Z.eq_dec i (52 + Z.of_nat k)) as [-> | Hne];
              [ exact Hk | apply IH; lia ]. }
    destruct (Hdec 12%nat) as [[i [Hi Hb]] | Hnone].
    + exists i. split; [ lia | exact Hb ].
    + exfalso. apply Hex. intros n Hn.
      rewrite Z.land_spec, Z.bits_0, kernel_mask_testbit.
      destruct (Z.leb_spec 52 n); destruct (Z.leb_spec n 63); simpl;
        try apply andb_false_r.
      rewrite Hnone by (simpl; lia). reflexivity.
  - intros [i [Hi Hb]] Hz.
    assert (Hbit : Z.testbit (Z.land ptr 0xFFF0000000000000) i = true).
    { rewrite Z.land_spec, Hb, kernel_mask_testbit.
      destruct (Z.leb_spec 52 i); destruct (Z.leb_spec i 63); simpl;
        try reflexivity; lia. }
    rewrite Hz, Z.bits_0 in Hbit. discriminate.
Qed.

(** C3 (as the specification words it) fails: a value with only bit 52 set
    is classified as a kernel address although bits 53..63 are clear. *)
Lemma is_kernel_address_not_all_bits :
  is_kernel_address 0x0010000000000000 = true /\
  ~ all_bits_set 52 63 0x0010000000000000.
Proof.
  split; [ reflexivity | ].
  intros Hall. specialize (Hall 63 ltac:(lia)). discriminate.
Qed.

(** *** The page-table walk *)

(** C7: a present large-page entry ends the walk.  At the upper-mid level
    (1 GiB, 30 bits) only the top and upper-mid tables are read; at the
    lower-mid level (2 MiB, 21 bits) only the top, upper-mid and lower-mid
    tables.  The result is resolved: the entry's bits [bits..51], a base
    aligned to [2^bits], plus the low [bits] bits of the address. *)
Theorem large_page_terminates_walk (L : mmpte_layout) (os : Os) (ptr : Z)
  (proc : option proc_t) (dtb : dtb_t) (e bits : Z) (reads : list event) :
  large_page_walk L os ptr dtb e bits reads ->
  let base := Z.land e (Z.shiftl (Z.ones (52 - bits)) bits) in
  virtual_to_physical L os ptr proc dtb
  = (Some {| ntphy_ptr := base + ptr mod 2 ^ bits;
             ntphy_valid_page := true;
             ntphy_zero_page := false |}, reads)
  /\ base mod 2 ^ bits = 0
  /\ length reads = (if bits =? 30 then 2%nat else 3%nat).
Proof.
  intros Hw.
  assert (Hpage : forall b, 0 <= b -> b <= 52 ->
    physical_page (Z.land e (Z.shiftl (Z.ones (52 - b)) b))
                  (Z.land ptr (Z.ones b))
    = {| ntphy_ptr := Z.land e (Z.shiftl (Z.ones (52 - b)) b) + ptr mod 2 ^ b;
         ntphy_valid_page := true;
         ntphy_zero_page := false |}).
  { intros b Hb Hb'. unfold physical_page, wrap64.
    rewrite Z.land_ones by lia.
    destruct (land_field_mask_bounds e (52 - b) b) as [Hbase _]; [ lia | lia | ].
    replace (b + (52 - b)) with 52 in Hbase by lia.
    assert (0 < 2 ^ b) by (apply Z.pow_pos_nonneg; lia).
    pose proof (Z.mod_pos_bound ptr (2 ^ b) ltac:(lia)).
    rewrite Z.mod_small; [ reflexivity | lia ]. }
  unfold virtual_to_physical, read_le64.
  destruct Hw as [pml4e pdpe H1 H2 Hl2 | pml4e pdpe pde H1 H2 Hl2 H3 Hl3];
    cbv zeta.
  - rewrite (read_pml4e_present _ _ _ _ _ H1), bind_run. unfold result, trace.
    simpl fst. simpl snd.
    rewrite (read_pdpe_present _ _ _ _ _ H2), bind_run. unfold result, trace.
    simpl fst. simpl snd. rewrite Hl2.
    change (mask 30) with (Z.ones 30).
    change (shl64 (mask 22) 30) with (Z.shiftl (Z.ones (52 - 30)) 30).
    rewrite (Hpage 30) by lia.
    split; [ reflexivity | split; [ | reflexivity ] ].
    apply (land_field_mask_bounds pdpe (52 - 30) 30); lia.
  - rewrite (read_pml4e_present _ _ _ _ _ H1), bind_run. unfold result, trace.
    simpl fst. simpl snd.
    rewrite (read_pdpe_present _ _ _ _ _ H2), bind_run. unfold result, trace.
    simpl fst. simpl snd. rewrite Hl2.
    destruct H3 as [H3 Hv3].
    rewrite (read_pde_some _ _ _ _ _ H3), bind_run. unfold result, trace.
    simpl fst. simpl snd. rewrite Hv3, Hl3. simpl negb. cbv iota.
    change (mask 21) with (Z.ones 21).
    change (shl64 (mask 31) 21) with (Z.shiftl (Z.ones (52 - 21)) 21).
    rewrite (Hpage 21) by lia.
    split; [ reflexivity | split; [ | reflexivity ] ].
    apply (land_field_mask_bounds pde (52 - 21) 21); lia.
Qed.

Lemma large_page_terminates_walk_witness :
  let os := Synthetic.session Synthetic.tables_1g Synthetic.no_virt [] 0 0x1AA000 in
  let os' := Synthetic.session Synthetic.tables_2m Synthetic.no_virt [] 0 0x1AA000 in
  (large_page_walk Synthetic.x64 os 0x1234 Synthetic.root 0x40000081 30
     [ReadPhysical 0x1000 8; ReadPhysical 0x2000 8]
   /\ virtual_to_physical Synthetic.x64 os 0x1234 None Synthetic.root
      = (Some (physical_page 0x40000000 0x1234),
         [ReadPhysical 0x1000 8; ReadPhysical 0x2000 8]))
  /\
  (large_page_walk Synthetic.x64 os' 0x1234 Synthetic.root 0x00600081 21
     [ReadPhysical 0x1000 8; ReadPhysical 0x2000 8; ReadPhysical 0x3000 8]
   /\ virtual_to_physical Synthetic.x64 os' 0x1234 None Synthetic.root
      = (Some (physical_page 0x00600000 0x1234),
         [ReadPhysical 0x1000 8; ReadPhysical 0x2000 8; ReadPhysical 0x3000 8])).
Proof.
  intros os os'.
  assert (W1 : large_page_walk Synthetic.x64 os 0x1234 Synthetic.root
                 0x40000081 30 [ReadPhysical 0x1000 8; ReadPhysical 0x2000 8]).
  { apply (large_1g Synthetic.x64 os 0x1234 Synthetic.root 0x2001 0x40000081);
      [ split; reflexivity | split; reflexivity | reflexivity ]. }
  assert (W2 : large_page_walk Synthetic.x64 os' 0x1234 Synthetic.root
                 0x00600081 21
                 [ReadPhysical 0x1000 8; ReadPhysical 0x2000 8;
                  ReadPhysical 0x3000 8]).
  { apply (large_2m Synthetic.x64 os' 0x1234 Synthetic.root 0x2001 0x3001
             0x00600081);
      [ split; reflexivity | split; reflexivity | reflexivity
      | split; reflexivity | reflexivity ]. }
  split; (split; [ assumption | ]).
  - exact (proj1 (large_page_terminates_walk Synthetic.x64 os 0x1234 None
                    Synthetic.root _ _ _ W1)).
  - exact (proj1 (large_page_terminates_walk Synthetic.x64 os' 0x1234 None
                    Synthetic.root _ _ _ W2)).
Defined.

(** C8: over a chain of present, non-large top, upper-mid and lower-mid
    entries, a present leaf entry translates to its page frame number times
    4096 plus the low 12 bits of the address. *)
Theorem present_leaf_translation (L : mmpte_layout) (os : Os) (ptr : Z)
  (proc : option proc_t) (dtb : dtb_t) (pte : Z) :
  frame_field (hard_PageFrameNumber L) = true ->
  leaf_chain L os ptr dtb pte ->
  bf_flag (hard_Valid L) pte = true ->
  result (Os_virtual_to_physical L os proc dtb ptr)
  = Some (bf_get (hard_PageFrameNumber L) pte * 4096 + ptr mod 4096).
Proof.
  intros Hf Hc Hv.
  destruct (leaf_chain_hands _ _ _ _ _ Hc) as [reads Hw].
  unfold Os_virtual_to_physical.
  rewrite (walk_classifies L os ptr proc dtb pte reads Hw), bind_run.
  unfold result at 1 2. simpl fst.
  unfold pte_to_physical. rewrite Hv. unfold result, ret. simpl fst.
  f_equal. unfold wrap64, PAGE_SIZE. rewrite virt_offset_low12.
  change (2 ^ 12) with 4096.
  pose proof (frame_field_bounds _ pte Hf) as Hb.
  pose proof (Z.mod_pos_bound ptr 4096 ltac:(lia)) as Ho.
  change (2 ^ 52) with 4503599627370496 in Hb.
  change (2 ^ 64) with 18446744073709551616.
  rewrite (Z.mod_small (bf_get (hard_PageFrameNumber L) pte * 4096)) by lia.
  apply Z.mod_small. lia.
Qed.

Lemma present_leaf_translation_witness :
  let os := Synthetic.session (Synthetic.tables 0x5001) Synthetic.no_virt []
              0 0x1AA000 in
  frame_field (hard_PageFrameNumber Synthetic.x64) = true /\
  leaf_chain Synthetic.x64 os 0x1234 Synthetic.root 0x5001 /\
  bf_flag (hard_Valid Synthetic.x64) 0x5001 = true /\
  result (Os_virtual_to_physical Synthetic.x64 os None Synthetic.root 0x1234)
  = Some 0x5234.
Proof.
  intros os.
  assert (Hc : leaf_chain Synthetic.x64 os 0x1234 Synthetic.root 0x5001).
  { exists 0x2001, 0x3001, 0x4001. repeat split; reflexivity. }
  split; [ reflexivity | split; [ exact Hc | split; [ reflexivity | ] ] ].
  exact (present_leaf_translation Synthetic.x64 os 0x1234 None Synthetic.root
           0x5001 eq_refl Hc eq_refl).
Defined.

(** *** The software classifier *)

Section Classifier.

Variable L : mmpte_layout.
Variable os : Os.

Lemma unswizzle_zero : unswizzle_pte L os 0 = 0.
Proof.
  unfold unswizzle_pte.
  destruct (negb (PhysicalMemoryLimitMask_ os =? 0)
            && negb (bf_flag (soft_SwizzleBit L) 0));
    [ apply Z.land_0_l | reflexivity ].
Qed.

Lemma pte_to_physical_zero (ptr : Z) (proc : option proc_t) :
  pte_to_physical L os ptr proc 0 = vad_pte_to_physical L os ptr proc.
Proof.
  unfold pte_to_physical.
  rewrite (proj2 (bf_fields_of_zero (hard_Valid L))).
  cbv zeta. rewrite unswizzle_zero.
  rewrite (proj2 (bf_fields_of_zero (soft_Prototype L))).
  rewrite (proj2 (bf_fields_of_zero (soft_Transition L))).
  reflexivity.
Qed.

Lemma pte_to_physical_present (ptr : Z) (proc : option proc_t) (pte : Z) :
  bf_flag (hard_Valid L) pte = true ->
  pte_to_physical L os ptr proc pte
  = (Some (physical_page
             (wrap64 (bf_get (hard_PageFrameNumber L) pte * PAGE_SIZE))
             (bf_get virt_offset ptr)), []).
Proof.
  intros Hv. unfold pte_to_physical. rewrite Hv. reflexivity.
Qed.

Lemma prototype_entry_inv (pte : Z) :
  prototype_entry L os pte = true ->
  bf_flag (hard_Valid L) pte = false /\
  bf_flag (soft_Prototype L) (unswizzle_pte L os pte) = true.
Proof.
  unfold prototype_entry. intros H. apply andb_true_iff in H.
  destruct H as [Hv Hp]. apply negb_true_iff in Hv. split; assumption.
Qed.

(** The two branches of the prototype resolver. *)
Lemma pte_to_physical_vad_branch (ptr : Z) (proc : option proc_t) (pte : Z) :
  prototype_entry L os pte = true ->
  Z.land (proto_target L os pte) vad_mask = vad_mask ->
  pte_to_physical L os ptr proc pte = vad_pte_to_physical L os ptr proc.
Proof.
  intros Hp Ht. apply prototype_entry_inv in Hp. destruct Hp as [Hv Hp].
  unfold pte_to_physical. rewrite Hv. cbv zeta. rewrite Hp.
  unfold proto_target in Ht. rewrite Ht, Z.eqb_refl. reflexivity.
Qed.

Lemma pte_to_physical_pool_branch (ptr : Z) (proc : option proc_t) (pte : Z) :
  prototype_entry L os pte = true ->
  Z.land (proto_target L os pte) vad_mask <> vad_mask ->
  pte_to_physical L os ptr proc pte
  = (match read_virtual_with_dtb (core_ os) (kernel_dtb os)
             (proto_target L os pte) 8 with
     | None => Some page_fault_required
     | Some bytes =>
         Some (prototype_pte_to_physical L os ptr (load64 bytes))
     end,
     [ReadVirtual (kernel_dtb os) (proto_target L os pte) 8]).
Proof.
  intros Hp Ht. apply prototype_entry_inv in Hp. destruct Hp as [Hv Hp].
  unfold pte_to_physical. rewrite Hv. cbv zeta. rewrite Hp.
  unfold proto_target in *. apply Z.eqb_neq in Ht. rewrite Ht.
  unfold memory_read_virtual_with_dtb. rewrite bind_run.
  unfold result, trace, sizeof_MMPTE. simpl fst. simpl snd.
  destruct (read_virtual_with_dtb (core_ os) (kernel_dtb os)
              (bf_get (proto_ProtoAddress L) (unswizzle_pte L os pte)) 8);
    reflexivity.
Qed.

(** The terminal classification does not follow a prototype flag, and
    takes a zero entry for demand-zero. *)
Lemma prototype_pte_terminal (ptr : Z) (fetched : Z) :
  prototype_entry L os fetched = true ->
  prototype_pte_to_physical L os ptr fetched = page_fault_required.
Proof.
  intros Hp. apply prototype_entry_inv in Hp. destruct Hp as [Hv Hp].
  unfold prototype_pte_to_physical. rewrite Hv. cbv zeta. rewrite Hp.
  reflexivity.
Qed.

Lemma prototype_pte_zero (ptr : Z) :
  prototype_pte_to_physical L os ptr 0 = zero_page.
Proof.
  unfold prototype_pte_to_physical.
  rewrite (proj2 (bf_fields_of_zero (hard_Valid L))).
  cbv zeta. rewrite unswizzle_zero.
  rewrite (proj2 (bf_fields_of_zero (soft_Prototype L))).
  rewrite (proj2 (bf_fields_of_zero (soft_Transition L))).
  rewrite (proj1 (bf_fields_of_zero (soft_PageFileHigh L))).
  reflexivity.
Qed.

End Classifier.

(** A zero leaf entry without a process context: the outcome follows the
    kernel-address classifier, and no collaborator is called for it. *)
Lemma zero_leaf_follows_classifier (L : mmpte_layout) (os : Os) (ptr : Z)
  (dtb : dtb_t) :
  leaf_chain L os ptr dtb 0 ->
  result (virtual_to_physical L os ptr None dtb)
  = (if is_kernel_address ptr then None else Some page_fault_required)
  /\ pte_to_physical L os ptr None 0
     = (if is_kernel_address ptr then None else Some page_fault_required, []).
Proof.
  intros Hc.
  assert (Hz : pte_to_physical L os ptr None 0
               = (if is_kernel_address ptr then None
                  else Some page_fault_required, [])).
  { rewrite pte_to_physical_zero. unfold vad_pte_to_physical, ret.
    destruct (is_kernel_address ptr); reflexivity. }
  split; [ | exact Hz ].
  destruct (leaf_chain_hands _ _ _ _ _ Hc) as [reads Hw].
  rewrite (walk_classifies L os ptr None dtb 0 reads Hw), Hz.
  reflexivity.
Qed.

Lemma is_kernel_address_false_bits (ptr : Z) :
  is_kernel_address ptr = false
  <-> forall i, 52 <= i <= 63 -> Z.testbit ptr i = false.
Proof.
  unfold is_kernel_address. rewrite negb_false_iff, Z.eqb_eq. split.
  - intros Hz i Hi.
    assert (Hb : Z.testbit (Z.land ptr 0xFFF0000000000000) i = false)
      by (rewrite Hz; apply Z.bits_0).
    rewrite Z.land_spec, kernel_mask_testbit in Hb.
    destruct (Z.leb_spec 52 i); [ | lia ].
    destruct (Z.leb_spec i 63); [ | lia ].
    simpl in Hb. rewrite andb_true_r in Hb. exact Hb.
  - intros Hall. apply Z.bits_inj'. intros n Hn.
    rewrite Z.land_spec, Z.bits_0, kernel_mask_testbit.
    destruct (Z.leb_spec 52 n); simpl; [ | apply andb_false_r ].
    destruct (Z.leb_spec n 63); [ | apply andb_false_r ].
    rewrite Hall by lia. reflexivity.
Qed.

(** C5 (as the specification words it) fails: the address
    0x0010000000001234 has bit 52 set and bits 53..63 clear, so it is not
    in the kernel range of the specification (bits 52..63 all set); its leaf
    entry is zero and no process is given, yet the translation is
    unresolved (no result), not pagefile-required. *)
Lemma zero_entry_partial_kernel_bits_unresolved :
  let os := Synthetic.session (Synthetic.tables 0) Synthetic.no_virt []
              0 0x1AA000 in
  leaf_chain Synthetic.x64 os 0x0010000000001234 Synthetic.root 0
  /\ ~ all_bits_set 52 63 0x0010000000001234
  /\ result (virtual_to_physical Synthetic.x64 os 0x0010000000001234 None
               Synthetic.root) = None
  /\ result (virtual_to_physical Synthetic.x64 os 0x0010000000001234 None
               Synthetic.root) <> Some page_fault_required.
Proof.
  intros os. split; [ | split; [ | split ] ].
  - exists 0x2001, 0x3001, 0x4001. repeat split; reflexivity.
  - intros Hall. specialize (Hall 63 ltac:(lia)). discriminate Hall.
  - reflexivity.
  - intros Heq. discriminate Heq.
Qed.

(** C5 (as the code has it): a leaf entry that is exactly zero, translated
    without a process context, is unresolved (no result) when at least one
    of bits 52..63 of the address is set, and pagefile-required when none
    of them is; no collaborator is called to classify it. *)
Theorem zero_entry_without_process (L : mmpte_layout) (os : Os) (ptr : Z)
  (dtb : dtb_t) :
  leaf_chain L os ptr dtb 0 ->
  (some_bit_set 52 63 ptr ->
   result (virtual_to_physical L os ptr None dtb) = None
   /\ pte_to_physical L os ptr None 0 = (None, []))
  /\ (~ some_bit_set 52 63 ptr ->
      result (virtual_to_physical L os ptr None dtb)
      = Some page_fault_required
      /\ pte_to_physical L os ptr None 0 = (Some page_fault_required, [])).
Proof.
  intros Hc.
  destruct (zero_leaf_follows_classifier L os ptr dtb Hc) as [Hw Hz].
  rewrite Hw, Hz.
  destruct (is_kernel_address ptr) eqn:Hk.
  - split; [ intros _; split; reflexivity | ].
    intros Hnone. exfalso.
    assert (Hf : is_kernel_address ptr = false).
    { apply is_kernel_address_false_bits. intros i Hi.
      destruct (Z.testbit ptr i) eqn:Hb; [ | reflexivity ].
      exfalso. apply Hnone. exists i. split; assumption. }
    rewrite Hk in Hf. discriminate Hf.
  - split; [ | intros _; split; reflexivity ].
    intros [i [Hi Hb]]. exfalso.
    rewrite (proj1 (is_kernel_address_false_bits ptr) Hk i Hi) in Hb.
    discriminate Hb.
Qed.

Lemma zero_entry_without_process_witness :
  let os := Synthetic.session (Synthetic.tables 0) Synthetic.no_virt []
              0 0x1AA000 in
  let kos := Synthetic.session (Synthetic.kernel_tables 0) Synthetic.no_virt []
               0 0x1AA000 in
  (leaf_chain Synthetic.x64 os 0x1234 Synthetic.root 0 /\
   ~ some_bit_set 52 63 0x1234 /\
   result (virtual_to_physical Synthetic.x64 os 0x1234 None Synthetic.root)
   = Some page_fault_required)
  /\
  (leaf_chain Synthetic.x64 kos 0xFFFF800000001234 Synthetic.root 0 /\
   some_bit_set 52 63 0xFFFF800000001234 /\
   result (virtual_to_physical Synthetic.x64 kos 0xFFFF800000001234 None
             Synthetic.root)
   = None)
  /\
  (leaf_chain Synthetic.x64 os 0x0010000000001234 Synthetic.root 0 /\
   some_bit_set 52 63 0x0010000000001234 /\
   result (virtual_to_physical Synthetic.x64 os 0x0010000000001234 None
             Synthetic.root)
   = None).
Proof.
  intros os kos.
  assert (Hc : leaf_chain Synthetic.x64 os 0x1234 Synthetic.root 0).
  { exists 0x2001, 0x3001, 0x4001. repeat split; reflexivity. }
  assert (Hk : leaf_chain Synthetic.x64 kos 0xFFFF800000001234
                 Synthetic.root 0).
  { exists 0x2001, 0x3001, 0x4001. repeat split; reflexivity. }
  assert (Hp : leaf_chain Synthetic.x64 os 0x0010000000001234
                 Synthetic.root 0).
  { exists 0x2001, 0x3001, 0x4001. repeat split; reflexivity. }
  assert (Hn : ~ some_bit_set 52 63 0x1234).
  { intros [i [Hi Hb]].
    rewrite (proj1 (is_kernel_address_false_bits 0x1234) eq_refl i Hi) in Hb.
    discriminate Hb. }
  assert (Hs : some_bit_set 52 63 0xFFFF800000001234).
  { exists 63. split; [ lia | reflexivity ]. }
  assert (Hs' : some_bit_set 52 63 0x0010000000001234).
  { exists 52. split; [ lia | reflexivity ]. }
  split; [ | split ]; (split; [ assumption | split; [ assumption | ] ]).
  - exact (proj1 (proj2 (zero_entry_without_process Synthetic.x64 os 0x1234
                           Synthetic.root Hc) Hn)).
  - exact (proj1 (proj1 (zero_entry_without_process Synthetic.x64 kos
                           0xFFFF800000001234 Synthetic.root Hk) Hs)).
  - exact (proj1 (proj1 (zero_entry_without_process Synthetic.x64 os
                           0x0010000000001234 Synthetic.root Hp) Hs')).
Defined.

(** *** Unswizzle *)

(** C6: the unswizzle step leaves the entry unchanged when the limit mask is
    zero and when the swizzle flag is set; with the mask 0xFFFF000000000000
    and the flag clear it clears exactly bits 48..63; it is not applied to a
    present entry, and the classification of a non-present entry depends on
    the entry only through its unswizzled value. *)
Theorem unswizzle_contract (L : mmpte_layout) (os : Os) (pte : Z) :
  (PhysicalMemoryLimitMask_ os = 0 -> unswizzle_pte L os pte = pte)
  /\ (PhysicalMemoryLimitMask_ os = 0xFFFF000000000000 ->
      bf_flag (soft_SwizzleBit L) pte = false ->
      unswizzle_pte L os pte = Z.land pte 0x0000FFFFFFFFFFFF /\
      forall i, Z.testbit (unswizzle_pte L os pte) i
                = Z.testbit pte i && (i <? 48))
  /\ (bf_flag (soft_SwizzleBit L) pte = true -> unswizzle_pte L os pte = pte)
  /\ (bf_flag (hard_Valid L) pte = true ->
      forall ptr proc,
        pte_to_physical L os ptr proc pte
        = (Some (physical_page
                   (wrap64 (bf_get (hard_PageFrameNumber L) pte * PAGE_SIZE))
                   (bf_get virt_offset ptr)), [])
        /\ prototype_pte_to_physical L os ptr pte
           = physical_page
               (wrap64 (bf_get (hard_PageFrameNumber L) pte * PAGE_SIZE))
               (bf_get virt_offset ptr))
  /\ (forall pte' ptr proc,
        bf_flag (hard_Valid L) pte = false ->
        bf_flag (hard_Valid L) pte' = false ->
        unswizzle_pte L os pte = unswizzle_pte L os pte' ->
        pte_to_physical L os ptr proc pte = pte_to_physical L os ptr proc pte'
        /\ prototype_pte_to_physical L os ptr pte
           = prototype_pte_to_physical L os ptr pte').
Proof.
  split; [ | split; [ | split; [ | split ] ] ].
  - intros Hm. unfold unswizzle_pte. rewrite Hm. reflexivity.
  - intros Hm Hs.
    assert (Hu : unswizzle_pte L os pte = Z.land pte (Z.ones 48)).
    { unfold unswizzle_pte. rewrite Hm, Hs. reflexivity. }
    split; [ exact Hu | ].
    intros i. rewrite Hu.
    destruct (Z.ltb_spec i 0) as [Hneg | Hpos].
    + rewrite !Z.testbit_neg_r by lia. reflexivity.
    + rewrite Z.land_spec, Z.testbit_ones by lia.
      destruct (Z.leb_spec 0 i); [ reflexivity | lia ].
  - intros Hs. unfold unswizzle_pte. rewrite Hs, andb_false_r. reflexivity.
  - intros Hv ptr proc. split.
    + apply pte_to_physical_present. exact Hv.
    + unfold prototype_pte_to_physical. rewrite Hv. reflexivity.
  - intros pte' ptr proc Hv Hv' Hu.
    unfold pte_to_physical, prototype_pte_to_physical.
    rewrite Hv, Hv'. cbv zeta. rewrite Hu. split; reflexivity.
Qed.

Lemma unswizzle_contract_witness :
  let unlimited := Synthetic.session [] Synthetic.no_virt [] 0 0x1AA000 in
  let limited :=
    Synthetic.session [] Synthetic.no_virt [] 0xFFFF000000000000 0x1AA000 in
  unswizzle_pte Synthetic.x64 unlimited 0xABCD000000000400
  = 0xABCD000000000400
  /\ unswizzle_pte Synthetic.x64 limited 0xABCD000000000400 = 0x400
  /\ unswizzle_pte Synthetic.x64 limited 0xABCD000000000410
     = 0xABCD000000000410
  /\ result (pte_to_physical Synthetic.x64 limited 0x1234 None
               0xABCD000000005001)
     = Some (physical_page 0x5000 0x234).
Proof.
  intros unlimited limited.
  split; [ | split; [ | split ] ].
  - exact (proj1 (unswizzle_contract Synthetic.x64 unlimited
                    0xABCD000000000400) eq_refl).
  - exact (proj1 (proj1 (proj2 (unswizzle_contract Synthetic.x64 limited
                                  0xABCD000000000400)) eq_refl eq_refl)).
  - exact (proj1 (proj2 (proj2 (unswizzle_contract Synthetic.x64 limited
                                  0xABCD000000000410))) eq_refl).
  - exact (f_equal fst
             (proj1 (proj1 (proj2 (proj2 (proj2
                (unswizzle_contract Synthetic.x64 limited
                   0xABCD000000005001)))) eq_refl 0x1234 None))).
Defined.

(** *** The prototype resolver *)

Lemma land_mask_all_bits (t k lo : Z) :
  0 <= k -> 0 <= lo ->
  Z.land t (Z.shiftl (Z.ones k) lo) = Z.shiftl (Z.ones k) lo
  <-> all_bits_set lo (lo + k - 1) t.
Proof.
  intros Hk Hlo. unfold all_bits_set. split.
  - intros Heq i Hi.
    assert (Hb : Z.testbit (Z.land t (Z.shiftl (Z.ones k) lo)) i
                 = Z.testbit (Z.shiftl (Z.ones k) lo) i) by (rewrite Heq; reflexivity).
    rewrite Z.land_spec, testbit_field_mask in Hb by lia.
    destruct (Z.leb_spec lo i); [ | lia ].
    destruct (Z.ltb_spec i (lo + k)); [ | lia ].
    simpl in Hb. rewrite andb_true_r in Hb. exact Hb.
  - intros Hall. apply Z.bits_inj'. intros n Hn.
    rewrite Z.land_spec, testbit_field_mask by lia.
    destruct (Z.leb_spec lo n); simpl; [ | apply andb_false_r ].
    destruct (Z.ltb_spec n (lo + k)); [ | apply andb_false_r ].
    rewrite Hall by lia. reflexivity.
Qed.

Lemma vad_target_upper_bits (t : Z) :
  Z.land t vad_mask = vad_mask <-> all_bits_set 32 63 t.
Proof.
  change vad_mask with (Z.shiftl (Z.ones 32) 32).
  apply (land_mask_all_bits t 32 32); lia.
Qed.

(** C4: a non-present entry with the prototype flag set (as the classifier
    sees it, after the unswizzle step) is resolved through the descriptor
    branch when bits 32..63 of its prototype-target address are all ones;
    otherwise the entry is fetched by one virtual read under the kernel
    directory-table base, whatever table base the caller walked with, and
    a failed fetch is pagefile-required. *)
Theorem prototype_routing (L : mmpte_layout) (os : Os) (ptr : Z)
  (proc : option proc_t) (pte : Z) :
  prototype_entry L os pte = true ->
  let target := proto_target L os pte in
  (all_bits_set 32 63 target ->
   pte_to_physical L os ptr proc pte = vad_pte_to_physical L os ptr proc)
  /\ (~ all_bits_set 32 63 target ->
      trace (pte_to_physical L os ptr proc pte)
      = [ReadVirtual (kernel_dtb os) target 8]
      /\ (read_virtual_with_dtb (core_ os) (kernel_dtb os) target 8 = None ->
          result (pte_to_physical L os ptr proc pte)
          = Some page_fault_required)
      /\ forall dtb reads,
           hands_to_classifier L os ptr dtb pte reads ->
           trace (virtual_to_physical L os ptr proc dtb)
           = reads ++ [ReadVirtual (kernel_dtb os) target 8]).
Proof.
  intros Hp target. split.
  - intros Hall. apply pte_to_physical_vad_branch; [ exact Hp | ].
    apply vad_target_upper_bits. exact Hall.
  - intros Hnot.
    assert (Hne : Z.land (proto_target L os pte) vad_mask <> vad_mask).
    { intros Heq. apply Hnot. apply vad_target_upper_bits. exact Heq. }
    pose proof (pte_to_physical_pool_branch L os ptr proc pte Hp Hne) as Hrun.
    split; [ rewrite Hrun; reflexivity | split ].
    + intros Hfail. rewrite Hrun. unfold result. simpl fst.
      fold target. rewrite Hfail. reflexivity.
    + intros dtb reads Hw.
      rewrite (walk_classifies L os ptr proc dtb pte reads Hw).
      unfold trace at 1. simpl snd. rewrite Hrun. reflexivity.
Qed.

Lemma prototype_routing_witness :
  let os := Synthetic.session [] Synthetic.pool [] 0 0x1AA000 in
  (prototype_entry Synthetic.x64 os Synthetic.proto_vad = true /\
   pte_to_physical Synthetic.x64 os 0x1234 None Synthetic.proto_vad
   = vad_pte_to_physical Synthetic.x64 os 0x1234 None)
  /\
  (prototype_entry Synthetic.x64 os Synthetic.proto_unreadable = true /\
   trace (pte_to_physical Synthetic.x64 os 0x1234 None
            Synthetic.proto_unreadable)
   = [ReadVirtual {| val := 0x1AA000 |} 0xFFFFA00000003000 8] /\
   result (pte_to_physical Synthetic.x64 os 0x1234 None
             Synthetic.proto_unreadable)
   = Some page_fault_required).
Proof.
  intros os. split.
  - split; [ reflexivity | ].
    apply (proj1 (prototype_routing Synthetic.x64 os 0x1234 None
                    Synthetic.proto_vad eq_refl)).
    apply vad_target_upper_bits. reflexivity.
  - assert (Hnot : ~ all_bits_set 32 63
                     (proto_target Synthetic.x64 os Synthetic.proto_unreadable)).
    { intros Hall. apply vad_target_upper_bits in Hall. discriminate Hall. }
    destruct (proj2 (prototype_routing Synthetic.x64 os 0x1234 None
                       Synthetic.proto_unreadable eq_refl) Hnot)
      as [Ht [Hr _]].
    split; [ reflexivity | split; [ exact Ht | exact (Hr eq_refl) ] ].
Defined.

(** *** The descriptor branch *)

Section Descriptor.

Variable L : mmpte_layout.
Variable os : Os.

Lemma vad_pte_to_physical_run (ptr : Z) (p : proc_t) (area : vm_area_t)
  (sp : span_t) :
  vm_area_find (core_ os) p ptr = Some area ->
  vm_area_span (core_ os) p area = Some sp ->
  vad_pte_to_physical L os ptr (Some p)
  = match read_virtual_with_dtb (core_ os) (kdtb p)
            (first_proto_pte_field os area) 8 with
    | None =>
        (None,
         [VmAreaFind p ptr; VmAreaSpan p area;
          ReadVirtual (kdtb p) (first_proto_pte_field os area) 8])
    | Some b1 =>
        (match read_virtual_with_dtb (core_ os) (kdtb p)
                 (vad_pte_ptr (load64 b1) ptr sp) 8 with
         | None => None
         | Some b2 => Some (prototype_pte_to_physical L os ptr (load64 b2))
         end,
         [VmAreaFind p ptr; VmAreaSpan p area;
          ReadVirtual (kdtb p) (first_proto_pte_field os area) 8;
          ReadVirtual (kdtb p) (vad_pte_ptr (load64 b1) ptr sp) 8])
    end.
Proof.
  intros Hf Hs.
  unfold vad_pte_to_physical, vm_area_find_call, vm_area_span_call,
    memory_read_virtual_with_dtb, first_proto_pte_field, bind, ret.
  cbv beta iota. rewrite Hf. cbv beta iota. rewrite Hs. cbv beta iota.
  destruct (read_virtual_with_dtb (core_ os) (kdtb p)
              (wrap64 (area_id area + offsets_MMVAD_FirstPrototypePte os)) 8)
    as [b1 |]; [ | reflexivity ].
  cbv beta iota.
  destruct (read_virtual_with_dtb (core_ os) (kdtb p)
              (vad_pte_ptr (load64 b1) ptr sp) 8) as [b2 |]; reflexivity.
Qed.

Lemma within_nil (n v : nat) : within n v [].
Proof. unfold within, virtual_reads. simpl. repeat split; lia. Qed.

Lemma within_app (n v n' v' : nat) (t t' : list event) :
  within n v t -> within n' v' t' -> within (n + n') (v + v') (t ++ t').
Proof.
  unfold within, virtual_reads, no_physical_write.
  intros [Hl [Hv Hw]] [Hl' [Hv' Hw']].
  rewrite length_app, filter_app, length_app, forallb_app, Hw, Hw'.
  repeat split; [ lia | lia ].
Qed.

Lemma within_mono (n v n' v' : nat) (t : list event) :
  within n v t -> (n <= n')%nat -> (v <= v')%nat -> within n' v' t.
Proof.
  unfold within. intros [Hl [Hv Hw]] Hn Hv'. repeat split; [ lia | lia | exact Hw ].
Qed.

Lemma vad_pte_to_physical_within (ptr : Z) (proc : option proc_t) :
  within 4 2 (trace (vad_pte_to_physical L os ptr proc)).
Proof.
  destruct proc as [p |].
  - destruct (vm_area_find (core_ os) p ptr) as [area |] eqn:Hf.
    + destruct (vm_area_span (core_ os) p area) as [sp |] eqn:Hs.
      * rewrite (vad_pte_to_physical_run ptr p area sp Hf Hs).
        destruct (read_virtual_with_dtb (core_ os) (kdtb p)
                    (first_proto_pte_field os area) 8);
          unfold within, virtual_reads, trace; simpl; repeat split; lia.
      * unfold vad_pte_to_physical, vm_area_find_call, vm_area_span_call,
          bind, ret.
        cbv beta iota. rewrite Hf. cbv beta iota. rewrite Hs.
        unfold within, virtual_reads, trace; simpl; repeat split; lia.
    + unfold vad_pte_to_physical, vm_area_find_call, bind, ret.
      cbv beta iota. rewrite Hf.
      unfold within, virtual_reads, trace; simpl; repeat split; lia.
  - unfold vad_pte_to_physical.
    destruct (is_kernel_address ptr); apply within_nil.
Qed.

Lemma pte_to_physical_within (ptr : Z) (proc : option proc_t) (pte : Z) :
  within 4 2 (trace (pte_to_physical L os ptr proc pte)).
Proof.
  destruct (prototype_entry L os pte) eqn:Hp.
  - destruct (Z.eq_dec (Z.land (proto_target L os pte) vad_mask) vad_mask)
      as [Heq | Hne].
    + rewrite (pte_to_physical_vad_branch L os ptr proc pte Hp Heq).
      apply vad_pte_to_physical_within.
    + rewrite (pte_to_physical_pool_branch L os ptr proc pte Hp Hne).
      unfold within, virtual_reads, trace; simpl; repeat split; lia.
  - unfold prototype_entry in Hp. unfold pte_to_physical.
    destruct (bf_flag (hard_Valid L) pte); [ apply within_nil | ].
    simpl in Hp. cbv zeta. rewrite Hp.
    destruct (bf_flag (soft_Transition L) (unswizzle_pte L os pte));
      [ apply within_nil | ].
    destruct (unswizzle_pte L os pte =? 0);
      [ apply vad_pte_to_physical_within | ].
    destruct (bf_get (soft_PageFileHigh L) (unswizzle_pte L os pte) =? 0);
      apply within_nil.
Qed.

End Descriptor.

(** C10: in the descriptor branch a failed virtual read, of the region's
    first-prototype-entry member or of the prototype entry itself, ends the
    translation without a result; in the pool branch a failed fetch is
    pagefile-required, which is a result. *)
Theorem descriptor_read_failure_unresolved (L : mmpte_layout) (os : Os)
  (ptr : Z) (p : proc_t) (area : vm_area_t) (sp : span_t) :
  vm_area_find (core_ os) p ptr = Some area ->
  vm_area_span (core_ os) p area = Some sp ->
  (read_virtual_with_dtb (core_ os) (kdtb p)
     (first_proto_pte_field os area) 8 = None ->
   result (vad_pte_to_physical L os ptr (Some p)) = None)
  /\ (forall b1,
        read_virtual_with_dtb (core_ os) (kdtb p)
          (first_proto_pte_field os area) 8 = Some b1 ->
        read_virtual_with_dtb (core_ os) (kdtb p)
          (vad_pte_ptr (load64 b1) ptr sp) 8 = None ->
        result (vad_pte_to_physical L os ptr (Some p)) = None)
  /\ (forall pte,
        prototype_entry L os pte = true ->
        Z.land (proto_target L os pte) vad_mask <> vad_mask ->
        read_virtual_with_dtb (core_ os) (kernel_dtb os)
          (proto_target L os pte) 8 = None ->
        result (pte_to_physical L os ptr (Some p) pte)
        = Some page_fault_required)
  /\ (forall pte,
        prototype_entry L os pte = true ->
        Z.land (proto_target L os pte) vad_mask = vad_mask ->
        result (pte_to_physical L os ptr (Some p) pte)
        = result (vad_pte_to_physical L os ptr (Some p))).
Proof.
  intros Hf Hs.
  pose proof (vad_pte_to_physical_run L os ptr p area sp Hf Hs) as Hrun.
  split; [ | split; [ | split ] ].
  - intros H1. rewrite Hrun, H1. reflexivity.
  - intros b1 H1 H2. rewrite Hrun, H1, H2. reflexivity.
  - intros pte Hp Hne Hfail.
    rewrite (pte_to_physical_pool_branch L os ptr (Some p) pte Hp Hne), Hfail.
    reflexivity.
  - intros pte Hp Heq.
    rewrite (pte_to_physical_vad_branch L os ptr (Some p) pte Hp Heq).
    reflexivity.
Qed.

Lemma descriptor_read_failure_unresolved_witness :
  let os1 := Synthetic.session [] Synthetic.no_virt Synthetic.region
               0 0x1AA000 in
  let os2 := Synthetic.session [] Synthetic.descriptors Synthetic.region
               0 0x1AA000 in
  result (vad_pte_to_physical Synthetic.x64 os1 0x1234
            (Some Synthetic.proc4)) = None
  /\ result (vad_pte_to_physical Synthetic.x64 os2 0x1234
               (Some Synthetic.proc4)) = None
  /\ result (pte_to_physical Synthetic.x64 os1 0x1234 (Some Synthetic.proc4)
               Synthetic.proto_unreadable) = Some page_fault_required.
Proof.
  intros os1 os2.
  pose proof (descriptor_read_failure_unresolved Synthetic.x64 os1 0x1234
                Synthetic.proc4 {| area_id := 0xFFFFB00000000100 |}
                {| span_addr := 0x1000; span_size := 0x2000 |}
                eq_refl eq_refl) as [H1 [_ [H3 _]]].
  pose proof (descriptor_read_failure_unresolved Synthetic.x64 os2 0x1234
                Synthetic.proc4 {| area_id := 0xFFFFB00000000100 |}
                {| span_addr := 0x1000; span_size := 0x2000 |}
                eq_refl eq_refl) as [_ [H2 _]].
  split; [ exact (H1 eq_refl) | split ].
  - exact (H2 (Synthetic.le_split 8 0xFFFFC00000000000) eq_refl eq_refl).
  - apply (H3 Synthetic.proto_unreadable eq_refl); [ | reflexivity ].
    intros Heq. discriminate Heq.
Defined.

(** *** The pool branch *)

(** C2 (as the specification words it) fails: the pool entry fetched for
    [proto_to_zero] is exactly zero; the translation answers demand-zero and
    asks no descriptor, where the full classifier run on that zero entry
    answers pagefile-required (no process, user address). *)
Lemma pool_fetch_is_not_full_classifier :
  let os := Synthetic.session [] Synthetic.pool [] 0 0x1AA000 in
  prototype_entry Synthetic.x64 os Synthetic.proto_to_zero = true
  /\ Z.land (proto_target Synthetic.x64 os Synthetic.proto_to_zero) vad_mask
     <> vad_mask
  /\ option_map load64
       (read_virtual_with_dtb (core_ os) (kernel_dtb os)
          (proto_target Synthetic.x64 os Synthetic.proto_to_zero) 8)
     = Some 0
  /\ result (pte_to_physical Synthetic.x64 os 0x1234 None
               Synthetic.proto_to_zero) = Some zero_page
  /\ result (pte_to_physical Synthetic.x64 os 0x1234 None 0)
     = Some page_fault_required
  /\ result (pte_to_physical Synthetic.x64 os 0x1234 None
               Synthetic.proto_to_zero)
     <> result (pte_to_physical Synthetic.x64 os 0x1234 None 0).
Proof.
  intros os.
  split; [ reflexivity | split; [ | split; [ reflexivity | ] ] ].
  - intros Heq. discriminate Heq.
  - split; [ reflexivity | split; [ reflexivity | ] ].
    intros Heq. discriminate Heq.
Qed.

(** C2 (as the code has it): when the pool read succeeds the result is the
    terminal classification of the fetched entry, after that single read:
    present and transition entries resolve, a fetched entry that is exactly
    zero is demand-zero, and a fetched entry with the prototype flag is
    pagefile-required; no descriptor is consulted. *)
Theorem pool_fetch_terminal_classification (L : mmpte_layout) (os : Os)
  (ptr : Z) (proc : option proc_t) (pte : Z) (bytes : list byte) :
  prototype_entry L os pte = true ->
  Z.land (proto_target L os pte) vad_mask <> vad_mask ->
  read_virtual_with_dtb (core_ os) (kernel_dtb os) (proto_target L os pte) 8
  = Some bytes ->
  let fetched := load64 bytes in
  pte_to_physical L os ptr proc pte
  = (Some (prototype_pte_to_physical L os ptr fetched),
     [ReadVirtual (kernel_dtb os) (proto_target L os pte) 8])
  /\ (fetched = 0 ->
      result (pte_to_physical L os ptr proc pte) = Some zero_page)
  /\ (prototype_entry L os fetched = true ->
      result (pte_to_physical L os ptr proc pte) = Some page_fault_required)
  /\ (bf_flag (hard_Valid L) fetched = true ->
      result (pte_to_physical L os ptr proc pte)
      = Some (physical_page
                (wrap64 (bf_get (hard_PageFrameNumber L) fetched * PAGE_SIZE))
                (bf_get virt_offset ptr))).
Proof.
  intros Hp Hne Hread fetched.
  assert (Hrun : pte_to_physical L os ptr proc pte
                 = (Some (prototype_pte_to_physical L os ptr fetched),
                    [ReadVirtual (kernel_dtb os) (proto_target L os pte) 8])).
  { rewrite (pte_to_physical_pool_branch L os ptr proc pte Hp Hne), Hread.
    reflexivity. }
  split; [ exact Hrun | ].
  rewrite Hrun. unfold result. simpl fst.
  split; [ | split ].
  - intros Hz. rewrite Hz, prototype_pte_zero. reflexivity.
  - intros Hf. rewrite (prototype_pte_terminal L os ptr fetched Hf).
    reflexivity.
  - intros Hv. unfold prototype_pte_to_physical. rewrite Hv. reflexivity.
Qed.

Lemma pool_fetch_terminal_classification_witness :
  let os := Synthetic.session [] Synthetic.pool [] 0 0x1AA000 in
  prototype_entry Synthetic.x64 os Synthetic.proto_to_zero = true
  /\ pte_to_physical Synthetic.x64 os 0x1234 None Synthetic.proto_to_zero
     = (Some zero_page,
        [ReadVirtual {| val := 0x1AA000 |} 0xFFFFA00000001000 8]).
Proof.
  intros os. split; [ reflexivity | ].
  refine (proj1 (pool_fetch_terminal_classification Synthetic.x64 os 0x1234
                   None Synthetic.proto_to_zero (Synthetic.le_split 8 0)
                   eq_refl _ eq_refl)).
  intros Heq. discriminate Heq.
Defined.

(** *** Bounded resolution *)

Lemma trace_bind {A B : Type} (m : M A) (k : A -> M B) :
  trace (bind m k) = trace m ++ trace (k (result m)).
Proof. rewrite bind_run. reflexivity. Qed.

Lemma result_bind {A B : Type} (m : M A) (k : A -> M B) :
  result (bind m k) = result (k (result m)).
Proof. rewrite bind_run. reflexivity. Qed.

Section Bounds.

Variable L : mmpte_layout.
Variable os : Os.

Lemma within_physical_read (phy : Z) : within 1 0 [ReadPhysical phy 8].
Proof. unfold within, virtual_reads. simpl. repeat split; lia. Qed.

Lemma read_pml4e_trace (virt : Z) (dtb : dtb_t) :
  trace (read_pml4e L os virt dtb) = [ReadPhysical (pml4e_ptr virt dtb) 8].
Proof.
  unfold read_pml4e, memory_read_physical, bind, ret. cbv beta iota.
  destruct (read_physical (core_ os) (pml4e_ptr virt dtb) sizeof_MMPTE)
    as [bytes |]; [ | reflexivity ].
  destruct (negb (bf_flag (hard_Valid L) (load64 bytes))); reflexivity.
Qed.

Lemma read_pdpe_trace (virt pml4e : Z) :
  trace (read_pdpe L os virt pml4e) = [ReadPhysical (pdpe_ptr L virt pml4e) 8].
Proof.
  unfold read_pdpe, memory_read_physical, bind, ret. cbv beta iota.
  destruct (read_physical (core_ os) (pdpe_ptr L virt pml4e) sizeof_MMPTE)
    as [bytes |]; [ | reflexivity ].
  destruct (negb (bf_flag (hard_Valid L) (load64 bytes))); reflexivity.
Qed.

Lemma read_pde_trace (virt pdpe : Z) :
  trace (read_pde L os virt pdpe) = [ReadPhysical (pde_ptr L virt pdpe) 8].
Proof.
  unfold read_pde, memory_read_physical, bind, ret. cbv beta iota.
  destruct (read_physical (core_ os) (pde_ptr L virt pdpe) sizeof_MMPTE);
    reflexivity.
Qed.

Lemma read_pte_trace (virt pde : Z) :
  trace (read_pte L os virt pde) = [ReadPhysical (pte_ptr L virt pde) 8].
Proof.
  unfold read_pte, memory_read_physical, bind, ret. cbv beta iota.
  destruct (read_physical (core_ os) (pte_ptr L virt pde) sizeof_MMPTE);
    reflexivity.
Qed.

Lemma virtual_to_physical_within (ptr : Z) (proc : option proc_t)
  (dtb : dtb_t) :
  within 8 2 (trace (virtual_to_physical L os ptr proc dtb)).
Proof.
  unfold virtual_to_physical. cbv zeta.
  rewrite trace_bind, read_pml4e_trace.
  apply (within_app 1 0 7 2); [ apply within_physical_read | ].
  destruct (result (read_pml4e L os (read_le64 ptr) dtb)) as [pml4e |];
    [ | apply within_nil ].
  rewrite trace_bind, read_pdpe_trace.
  apply (within_app 1 0 6 2); [ apply within_physical_read | ].
  destruct (result (read_pdpe L os (read_le64 ptr) pml4e)) as [pdpe |];
    [ | apply within_nil ].
  destruct (bf_flag (hard_LargePage L) pdpe); [ apply within_nil | ].
  rewrite trace_bind, read_pde_trace.
  apply (within_app 1 0 5 2); [ apply within_physical_read | ].
  destruct (result (read_pde L os (read_le64 ptr) pdpe)) as [pde |];
    [ | apply within_nil ].
  destruct (negb (bf_flag (hard_Valid L) pde)).
  { apply (within_mono 4 2); [ apply pte_to_physical_within | lia | lia ]. }
  destruct (bf_flag (hard_LargePage L) pde); [ apply within_nil | ].
  rewrite trace_bind, read_pte_trace.
  apply (within_app 1 0 4 2); [ apply within_physical_read | ].
  destruct (result (read_pte L os (read_le64 ptr) pde)) as [pte |];
    [ apply pte_to_physical_within | apply within_nil ].
Qed.

(** A classification either fetches one pool entry, or takes the
    descriptor branch, or calls no collaborator. *)
Lemma pte_to_physical_branches (ptr : Z) (proc : option proc_t) (pte : Z) :
  trace (pte_to_physical L os ptr proc pte)
  = [ReadVirtual (kernel_dtb os) (proto_target L os pte) 8]
  \/ pte_to_physical L os ptr proc pte = vad_pte_to_physical L os ptr proc
  \/ trace (pte_to_physical L os ptr proc pte) = [].
Proof.
  destruct (prototype_entry L os pte) eqn:Hp.
  - destruct (Z.eq_dec (Z.land (proto_target L os pte) vad_mask) vad_mask)
      as [Heq | Hne].
    + right. left. apply pte_to_physical_vad_branch; assumption.
    + left. rewrite (pte_to_physical_pool_branch L os ptr proc pte Hp Hne).
      reflexivity.
  - unfold prototype_entry in Hp. unfold pte_to_physical.
    destruct (bf_flag (hard_Valid L) pte); [ right; right; reflexivity | ].
    simpl in Hp. cbv zeta. rewrite Hp.
    destruct (bf_flag (soft_Transition L) (unswizzle_pte L os pte));
      [ right; right; reflexivity | ].
    destruct (unswizzle_pte L os pte =? 0); [ right; left; reflexivity | ].
    destruct (bf_get (soft_PageFileHigh L) (unswizzle_pte L os pte) =? 0);
      right; right; reflexivity.
Qed.

End Bounds.

(** C1: prototype resolution is bounded.  A classification fetches one pool
    entry, or takes the descriptor branch, or calls no collaborator.  The
    descriptor branch makes its two lookups and at most two virtual reads
    and classifies the entry it fetched terminally; the pool branch makes
    its single fetch and classifies the fetched entry terminally; the
    terminal classification reports an entry with the prototype flag as
    pagefile-required and follows nothing.  A whole translation makes at
    most eight collaborator calls. *)
Theorem prototype_resolution_bounded (L : mmpte_layout) (os : Os) (ptr : Z) :
  (forall proc pte,
     trace (pte_to_physical L os ptr proc pte)
     = [ReadVirtual (kernel_dtb os) (proto_target L os pte) 8]
     \/ pte_to_physical L os ptr proc pte = vad_pte_to_physical L os ptr proc
     \/ trace (pte_to_physical L os ptr proc pte) = [])
  /\ (forall proc, within 4 2 (trace (vad_pte_to_physical L os ptr proc)))
  /\ (forall p area sp b1 b2,
        vm_area_find (core_ os) p ptr = Some area ->
        vm_area_span (core_ os) p area = Some sp ->
        read_virtual_with_dtb (core_ os) (kdtb p)
          (first_proto_pte_field os area) 8 = Some b1 ->
        read_virtual_with_dtb (core_ os) (kdtb p)
          (vad_pte_ptr (load64 b1) ptr sp) 8 = Some b2 ->
        vad_pte_to_physical L os ptr (Some p)
        = (Some (prototype_pte_to_physical L os ptr (load64 b2)),
           [VmAreaFind p ptr; VmAreaSpan p area;
            ReadVirtual (kdtb p) (first_proto_pte_field os area) 8;
            ReadVirtual (kdtb p) (vad_pte_ptr (load64 b1) ptr sp) 8]))
  /\ (forall fetched,
        prototype_entry L os fetched = true ->
        prototype_pte_to_physical L os ptr fetched = page_fault_required)
  /\ (forall proc pte,
        prototype_entry L os pte = true ->
        Z.land (proto_target L os pte) vad_mask <> vad_mask ->
        trace (pte_to_physical L os ptr proc pte)
        = [ReadVirtual (kernel_dtb os) (proto_target L os pte) 8]
        /\ forall bytes,
             read_virtual_with_dtb (core_ os) (kernel_dtb os)
               (proto_target L os pte) 8 = Some bytes ->
             result (pte_to_physical L os ptr proc pte)
             = Some (prototype_pte_to_physical L os ptr (load64 bytes))
             /\ (prototype_entry L os (load64 bytes) = true ->
                 result (pte_to_physical L os ptr proc pte)
                 = Some page_fault_required))
  /\ (forall proc dtb,
        within 8 2 (trace (virtual_to_physical L os ptr proc dtb))).
Proof.
  split; [ | split; [ | split; [ | split; [ | split ] ] ] ].
  - intros proc pte. apply pte_to_physical_branches.
  - intros proc. apply vad_pte_to_physical_within.
  - intros p area sp b1 b2 Hf Hs H1 H2.
    rewrite (vad_pte_to_physical_run L os ptr p area sp Hf Hs), H1, H2.
    reflexivity.
  - intros fetched Hp. apply prototype_pte_terminal. exact Hp.
  - intros proc pte Hp Hne.
    pose proof (pte_to_physical_pool_branch L os ptr proc pte Hp Hne) as Hrun.
    split; [ rewrite Hrun; reflexivity | ].
    intros bytes Hread. rewrite Hrun, Hread. unfold result. simpl fst.
    split; [ reflexivity | ].
    intros Hf. rewrite (prototype_pte_terminal L os ptr _ Hf). reflexivity.
  - intros proc dtb. apply virtual_to_physical_within.
Qed.

Lemma prototype_resolution_bounded_witness :
  let os := Synthetic.session [] Synthetic.pool [] 0 0x1AA000 in
  let os' := Synthetic.session [] Synthetic.descriptors_full Synthetic.region
               0 0x1AA000 in
  pte_to_physical Synthetic.x64 os 0x1234 None Synthetic.proto_to_proto
  = (Some page_fault_required,
     [ReadVirtual {| val := 0x1AA000 |} 0xFFFFA00000002000 8])
  /\ vad_pte_to_physical Synthetic.x64 os' 0x1234 (Some Synthetic.proc4)
     = (Some page_fault_required,
        [VmAreaFind Synthetic.proc4 0x1234;
         VmAreaSpan Synthetic.proc4 {| area_id := 0xFFFFB00000000100 |};
         ReadVirtual {| val := 0x1AA000 |} 0xFFFFB00000000148 8;
         ReadVirtual {| val := 0x1AA000 |} 0xFFFFC00000000000 8]).
Proof.
  intros os os'. split.
  - destruct (prototype_resolution_bounded Synthetic.x64 os 0x1234)
      as [_ [_ [_ [_ [Hpool _]]]]].
    assert (Hne : Z.land (proto_target Synthetic.x64 os
                            Synthetic.proto_to_proto) vad_mask <> vad_mask).
    { intros Heq. discriminate Heq. }
    destruct (Hpool None Synthetic.proto_to_proto eq_refl Hne) as [Ht Hr].
    destruct (Hr (Synthetic.le_split 8 0xA000000010000400) eq_refl)
      as [_ Hpfr].
    rewrite (run_eta (pte_to_physical Synthetic.x64 os 0x1234 None
                        Synthetic.proto_to_proto)).
    rewrite Ht, (Hpfr eq_refl). reflexivity.
  - destruct (prototype_resolution_bounded Synthetic.x64 os' 0x1234)
      as [_ [_ [Hvad _]]].
    exact (Hvad Synthetic.proc4 {| area_id := 0xFFFFB00000000100 |}
             {| span_addr := 0x1000; span_size := 0x2000 |}
             (Synthetic.le_split 8 0xFFFFC00000000000)
             (Synthetic.le_split 8 0xA000000010000400)
             eq_refl eq_refl eq_refl eq_refl).
Defined.

(** *** Writing a page *)

Lemma is_zero_from_spec (ptr : list byte) (n i : nat) :
  is_zero_from ptr i n = true
  <-> forall j, (i <= j < i + n)%nat -> nth j ptr x00 = x00.
Proof.
  revert i. induction n as [| n IH]; intros i; simpl.
  - split; [ intros _ j Hj; lia | reflexivity ].
  - destruct (Byte.eqb (nth i ptr x00) x00) eqn:Hb; simpl.
    + apply Byte.byte_dec_bl in Hb. rewrite IH. split.
      * intros Hrest j Hj.
        destruct (Nat.eq_dec j i) as [-> | Hne];
          [ exact Hb | apply Hrest; lia ].
      * intros Hall j Hj. apply Hall. lia.
    + split; [ discriminate | ].
      intros Hall. apply Byte.eqb_false in Hb.
      exfalso. apply Hb. apply Hall. lia.
Qed.

Lemma is_zero_page_spec (src : list byte) :
  Z.of_nat (length src) = PAGE_SIZE ->
  is_zero src PAGE_SIZE = true <-> Forall (fun b => b = x00) src.
Proof.
  intros Hlen. unfold is_zero. rewrite is_zero_from_spec.
  assert (Hn : Z.to_nat PAGE_SIZE = length src) by lia.
  rewrite Hn. rewrite Forall_nth. split.
  - intros Hall j d Hj. rewrite (nth_indep src d x00 Hj). apply Hall. lia.
  - intros Hall j Hj. apply Hall. lia.
Qed.

(** C9: [write_page] to an address that translates to demand-zero succeeds
    exactly when every byte of the 4096-byte source is zero, fails as soon
    as one byte is not, and in either case calls only the collaborators of
    the translation: no physical write is issued. *)
Theorem write_page_demand_zero (L : mmpte_layout) (os : Os) (ptr : Z)
  (src : list byte) (proc : option proc_t) (dtb : dtb_t) (nt_phy : ntphy_t) :
  result (virtual_to_physical L os ptr proc dtb) = Some nt_phy ->
  ntphy_valid_page nt_phy = false ->
  ntphy_zero_page nt_phy = true ->
  Z.of_nat (length src) = PAGE_SIZE ->
  (result (write_page L os ptr src proc dtb) = true
   <-> Forall (fun b => b = x00) src)
  /\ (Exists (fun b => b <> x00) src ->
      result (write_page L os ptr src proc dtb) = false)
  /\ trace (write_page L os ptr src proc dtb)
     = trace (virtual_to_physical L os ptr proc dtb)
  /\ no_physical_write (trace (write_page L os ptr src proc dtb)) = true.
Proof.
  intros Hres Hvalid Hzero Hlen.
  assert (Hrun : write_page L os ptr src proc dtb
                 = (is_zero src PAGE_SIZE,
                    trace (virtual_to_physical L os ptr proc dtb))).
  { unfold write_page. rewrite bind_run, Hres, Hvalid, Hzero.
    unfold result, trace, ret. simpl fst. simpl snd.
    rewrite app_nil_r. reflexivity. }
  rewrite Hrun. unfold result at 1 2. unfold trace at 1 3. simpl fst. simpl snd.
  split; [ apply is_zero_page_spec; exact Hlen | ].
  split; [ | split; [ reflexivity | ] ].
  - intros Hex. destruct (is_zero src PAGE_SIZE) eqn:Hz; [ | reflexivity ].
    apply (is_zero_page_spec src Hlen) in Hz.
    apply Exists_exists in Hex. destruct Hex as [b [Hin Hb]].
    rewrite Forall_forall in Hz. exfalso. apply Hb. apply Hz. exact Hin.
  - apply (virtual_to_physical_within L os ptr proc dtb).
Qed.

Lemma write_page_demand_zero_witness :
  let os := Synthetic.session (Synthetic.tables 0x20) Synthetic.no_virt []
              0 0x1AA000 in
  result (virtual_to_physical Synthetic.x64 os 0x1234 None Synthetic.root)
  = Some zero_page
  /\ result (write_page Synthetic.x64 os 0x1234 Synthetic.zero_buffer None
               Synthetic.root) = true
  /\ result (write_page Synthetic.x64 os 0x1234 Synthetic.dirty_buffer None
               Synthetic.root) = false
  /\ no_physical_write
       (trace (write_page Synthetic.x64 os 0x1234 Synthetic.zero_buffer None
                 Synthetic.root)) = true.
Proof.
  intros os.
  destruct (write_page_demand_zero Synthetic.x64 os 0x1234
              Synthetic.zero_buffer None Synthetic.root zero_page
              eq_refl eq_refl eq_refl eq_refl) as [Hiff [_ [_ Hnw]]].
  destruct (write_page_demand_zero Synthetic.x64 os 0x1234
              Synthetic.dirty_buffer None Synthetic.root zero_page
              eq_refl eq_refl eq_refl eq_refl) as [_ [Hfail _]].
  split; [ reflexivity | split; [ | split; [ | exact Hnw ] ] ].
  - apply Hiff. apply Forall_forall. intros b Hin.
    exact (repeat_spec _ _ _ Hin).
  - apply Hfail. apply Exists_exists. exists x01. split.
    + unfold Synthetic.dirty_buffer. apply in_or_app. right.
      apply in_or_app. left. left. reflexivity.
    + discriminate.
Defined.

(** * Further properties of the translation *)

(** ** Masks and table addresses *)

Lemma wrap64_land (z : Z) : wrap64 z = Z.land z (Z.ones 64).
Proof. unfold wrap64. symmetry. apply Z.land_ones. lia. Qed.

(** X1: for a width below 64, [mask] is the value with exactly the low
    [bits] bits set, [2^bits - 1]. *)
Theorem mask_low_bits (bits : Z) :
  0 <= bits < 64 -> mask bits = 2 ^ bits - 1.
Proof.
  intros Hb.
  replace (2 ^ bits - 1) with (Z.ones bits) by (rewrite Z.ones_equiv; lia).
  unfold mask, shl64, not64. rewrite wrap64_land, Z.lxor_0_l.
  apply Z.bits_inj'. intros n Hn.
  rewrite Z.lxor_spec, Z.land_spec, testbit_field_mask by lia.
  rewrite !Z.testbit_ones by lia.
  destruct (Z.leb_spec 0 n); [ simpl | lia ].
  destruct (Z.leb_spec bits n); destruct (Z.ltb_spec n (bits + 64));
    destruct (Z.ltb_spec n 64); destruct (Z.ltb_spec n bits);
    simpl; try reflexivity; exfalso; lia.
Qed.

Lemma mask_low_bits_witness :
  0 <= 0 < 64 /\ mask 0 = 2 ^ 0 - 1 /\ 0 <= 63 < 64 /\ mask 63 = 2 ^ 63 - 1.
Proof.
  split; [ lia | split; [ apply (mask_low_bits 0); lia | ] ].
  split; [ lia | apply (mask_low_bits 63); lia ].
Defined.

Lemma table_index_bounds (f : bitfield) (v : Z) :
  bf_signed f = false -> bf_width f = 9 ->
  0 <= bf_get f v < 512.
Proof.
  intros Hs Hw. unfold bf_get. rewrite Hs. simpl.
  pose proof (bf_raw_bounds f v ltac:(lia)) as Hr. rewrite Hw in Hr.
  change (2 ^ 9) with 512 in Hr. exact Hr.
Qed.

(** X2: the top-level entry is read at the table base, taken from bits
    12..51 of the directory-table base (its low 12 and high 12 bits are
    ignored), plus 8 times the 9-bit top index of the address: an 8-aligned
    address inside that 4 KiB table, below 2^52. *)
Theorem pml4e_ptr_in_root_table (virt : Z) (dtb : dtb_t) :
  let base := Z.land (val dtb) 0x000FFFFFFFFFF000 in
  let index := (virt / 2 ^ 39) mod 512 in
  pml4e_ptr virt dtb = base + 8 * index
  /\ base mod 4096 = 0
  /\ 0 <= base <= 2 ^ 52 - 4096
  /\ 0 <= 8 * index < 4096.
Proof.
  intros base index.
  assert (Hidx : bf_get virt_pml4 virt = index).
  { unfold bf_get, bf_raw, index. simpl bf_signed. simpl andb. cbv iota.
    simpl bf_lo. simpl bf_width.
    rewrite Z.land_ones, Z.shiftr_div_pow2 by lia. reflexivity. }
  assert (Hi : 0 <= index < 512).
  { unfold index. apply Z.mod_pos_bound. lia. }
  destruct (land_field_mask_bounds (val dtb) 40 12) as [Hb Hm]; [ lia | lia | ].
  change (Z.shiftl (Z.ones 40) 12) with 0x000FFFFFFFFFF000 in Hb, Hm.
  fold base in Hb, Hm.
  change (2 ^ (12 + 40)) with (2 ^ 52) in Hb.
  change (2 ^ 12) with 4096 in Hb, Hm.
  split; [ | split; [ exact Hm | split; [ exact Hb | lia ] ] ].
  unfold pml4e_ptr.
  change (shl64 (mask 40) 12) with 0x000FFFFFFFFFF000. fold base.
  rewrite Hidx. unfold wrap64.
  change (2 ^ 52) with 4503599627370496 in Hb.
  change (2 ^ 64) with 18446744073709551616.
  rewrite (Z.mod_small (index * 8)) by lia.
  rewrite Z.mod_small by lia. lia.
Qed.

(** X3: below the top level every table entry is read inside the 4 KiB
    frame the parent entry names: at frame * 4096 plus 8 times the 9-bit
    index of that level, without wrap-around. *)
Theorem lower_table_ptr_in_frame (L : mmpte_layout) (virt parent : Z) :
  frame_field (hard_PageFrameNumber L) = true ->
  let frame := bf_get (hard_PageFrameNumber L) parent in
  pdpe_ptr L virt parent = frame * 4096 + 8 * ((virt / 2 ^ 30) mod 512)
  /\ pde_ptr L virt parent = frame * 4096 + 8 * ((virt / 2 ^ 21) mod 512)
  /\ pte_ptr L virt parent = frame * 4096 + 8 * ((virt / 2 ^ 12) mod 512).
Proof.
  intros Hf frame.
  pose proof (frame_field_bounds _ parent Hf) as Hb. fold frame in Hb.
  change (2 ^ 52) with 4503599627370496 in Hb.
  assert (Hgen : forall f k,
    bf_signed f = false -> bf_width f = 9 -> bf_lo f = k -> 0 <= k ->
    wrap64 (wrap64 (frame * PAGE_SIZE) + wrap64 (bf_get f virt * sizeof_MMPTE))
    = frame * 4096 + 8 * ((virt / 2 ^ k) mod 512)).
  { intros f k Hs Hw Hlo Hk.
    assert (Hidx : bf_get f virt = (virt / 2 ^ k) mod 512).
    { unfold bf_get, bf_raw. rewrite Hs, Hw, Hlo. simpl andb. cbv iota.
      rewrite Z.land_ones, Z.shiftr_div_pow2 by lia. reflexivity. }
    pose proof (table_index_bounds f virt Hs Hw) as Hi. rewrite Hidx in *.
    unfold wrap64, PAGE_SIZE, sizeof_MMPTE.
    change (2 ^ 64) with 18446744073709551616.
    rewrite (Z.mod_small (frame * 4096)) by lia.
    rewrite (Z.mod_small (_ * 8)) by lia.
    rewrite Z.mod_small by lia. lia. }
  unfold pdpe_ptr, pde_ptr, pte_ptr. fold frame.
  split; [ | split ]; apply Hgen; (reflexivity || lia).
Qed.

Lemma lower_table_ptr_in_frame_witness :
  frame_field (hard_PageFrameNumber Synthetic.x64) = true
  /\ pte_ptr Synthetic.x64 0x1234 0x4001 = 4 * 4096 + 8 * 1.
Proof.
  split; [ reflexivity | ].
  exact (proj2 (proj2 (lower_table_ptr_in_frame Synthetic.x64 0x1234 0x4001
                         eq_refl))).
Defined.

(** ** Walks that stop early *)

Section EarlyStops.

Variable L : mmpte_layout.
Variable os : Os.

Lemma read_pml4e_absent (virt : Z) (dtb : dtb_t) :
  absent_at L os (pml4e_ptr virt dtb) ->
  read_pml4e L os virt dtb = (None, [ReadPhysical (pml4e_ptr virt dtb) 8]).
Proof.
  unfold absent_at, entry_at, read_pml4e, memory_read_physical, bind, ret.
  cbv beta iota.
  destruct (read_physical (core_ os) (pml4e_ptr virt dtb) sizeof_MMPTE)
    as [bytes |]; simpl; [ | reflexivity ].
  intros Hv. rewrite Hv. reflexivity.
Qed.

Lemma read_pdpe_absent (virt pml4e : Z) :
  absent_at L os (pdpe_ptr L virt pml4e) ->
  read_pdpe L os virt pml4e
  = (None, [ReadPhysical (pdpe_ptr L virt pml4e) 8]).
Proof.
  unfold absent_at, entry_at, read_pdpe, memory_read_physical, bind, ret.
  cbv beta iota.
  destruct (read_physical (core_ os) (pdpe_ptr L virt pml4e) sizeof_MMPTE)
    as [bytes |]; simpl; [ | reflexivity ].
  intros Hv. rewrite Hv. reflexivity.
Qed.

Lemma read_pde_none (virt pdpe : Z) :
  entry_at os (pde_ptr L virt pdpe) = None ->
  read_pde L os virt pdpe = (None, [ReadPhysical (pde_ptr L virt pdpe) 8]).
Proof.
  unfold entry_at, read_pde, memory_read_physical, bind, ret.
  cbv beta iota.
  destruct (read_physical (core_ os) (pde_ptr L virt pdpe) sizeof_MMPTE);
    simpl; [ discriminate | reflexivity ].
Qed.

Lemma read_pte_none (virt pde : Z) :
  entry_at os (pte_ptr L virt pde) = None ->
  read_pte L os virt pde = (None, [ReadPhysical (pte_ptr L virt pde) 8]).
Proof.
  unfold entry_at, read_pte, memory_read_physical, bind, ret.
  cbv beta iota.
  destruct (read_physical (core_ os) (pte_ptr L virt pde) sizeof_MMPTE);
    simpl; [ discriminate | reflexivity ].
Qed.

End EarlyStops.

(** X4: a top-level or upper-mid entry that cannot be read, or whose
    present bit is clear, ends the walk without a result; the tables below
    it are not read and no other collaborator is called. *)
Theorem absent_upper_entry_unresolved (L : mmpte_layout) (os : Os) (ptr : Z)
  (proc : option proc_t) (dtb : dtb_t) :
  (absent_at L os (pml4e_ptr ptr dtb) ->
   virtual_to_physical L os ptr proc dtb
   = (None, [ReadPhysical (pml4e_ptr ptr dtb) 8]))
  /\ (forall pml4e,
        present_at L os (pml4e_ptr ptr dtb) pml4e ->
        absent_at L os (pdpe_ptr L ptr pml4e) ->
        virtual_to_physical L os ptr proc dtb
        = (None, [ReadPhysical (pml4e_ptr ptr dtb) 8;
                  ReadPhysical (pdpe_ptr L ptr pml4e) 8])).
Proof.
  split.
  - intros Ha. unfold virtual_to_physical, read_le64. cbv zeta.
    rewrite (read_pml4e_absent L os ptr dtb Ha). reflexivity.
  - intros pml4e H1 Ha. unfold virtual_to_physical, read_le64. cbv zeta.
    rewrite (read_pml4e_present L os ptr dtb pml4e H1), bind_run.
    unfold result, trace. simpl fst. simpl snd.
    rewrite (read_pdpe_absent L os ptr pml4e Ha). reflexivity.
Qed.

Lemma absent_upper_entry_unresolved_witness :
  let empty := Synthetic.session [] Synthetic.no_virt [] 0 0x1AA000 in
  let broken := Synthetic.session Synthetic.tables_no_pdpe Synthetic.no_virt
                  [] 0 0x1AA000 in
  virtual_to_physical Synthetic.x64 empty 0x1234 None Synthetic.root
  = (None, [ReadPhysical 0x1000 8])
  /\ virtual_to_physical Synthetic.x64 broken 0x1234 None Synthetic.root
     = (None, [ReadPhysical 0x1000 8; ReadPhysical 0x2000 8]).
Proof.
  intros empty broken. split.
  - exact (proj1 (absent_upper_entry_unresolved Synthetic.x64 empty 0x1234
                    None Synthetic.root) I).
  - exact (proj2 (absent_upper_entry_unresolved Synthetic.x64 broken 0x1234
                    None Synthetic.root) 0x2001 (conj eq_refl eq_refl)
                 eq_refl).
Defined.

(** X5: a lower-mid entry that is read but not present is not a failure:
    it is classified as a software entry itself, after three table reads,
    and the leaf table is not read. *)
Theorem nonpresent_pde_is_classified (L : mmpte_layout) (os : Os) (ptr : Z)
  (proc : option proc_t) (dtb : dtb_t) (pml4e pdpe pde : Z) :
  present_at L os (pml4e_ptr ptr dtb) pml4e ->
  present_at L os (pdpe_ptr L ptr pml4e) pdpe ->
  bf_flag (hard_LargePage L) pdpe = false ->
  entry_at os (pde_ptr L ptr pdpe) = Some pde ->
  bf_flag (hard_Valid L) pde = false ->
  virtual_to_physical L os ptr proc dtb
  = (result (pte_to_physical L os ptr proc pde),
     [ReadPhysical (pml4e_ptr ptr dtb) 8;
      ReadPhysical (pdpe_ptr L ptr pml4e) 8;
      ReadPhysical (pde_ptr L ptr pdpe) 8]
     ++ trace (pte_to_physical L os ptr proc pde)).
Proof.
  intros H1 H2 Hl2 H3 Hv3.
  apply walk_classifies.
  apply (via_pde L os ptr dtb pml4e pdpe pde); assumption.
Qed.

Lemma nonpresent_pde_is_classified_witness :
  let os := Synthetic.session Synthetic.tables_soft_pde Synthetic.no_virt []
              0 0x1AA000 in
  virtual_to_physical Synthetic.x64 os 0x1234 None Synthetic.root
  = (Some (physical_page 0x5000 0x234),
     [ReadPhysical 0x1000 8; ReadPhysical 0x2000 8; ReadPhysical 0x3000 8]).
Proof.
  intros os.
  exact (nonpresent_pde_is_classified Synthetic.x64 os 0x1234 None
           Synthetic.root 0x2001 0x3001 0x5800
           (conj eq_refl eq_refl) (conj eq_refl eq_refl) eq_refl eq_refl
           eq_refl).
Defined.

(** X6: when the read of the lower-mid entry, or of the leaf entry, fails,
    the walk ends without a result right after that read. *)
Theorem failed_lower_read_unresolved (L : mmpte_layout) (os : Os) (ptr : Z)
  (proc : option proc_t) (dtb : dtb_t) (pml4e pdpe : Z) :
  present_at L os (pml4e_ptr ptr dtb) pml4e ->
  present_at L os (pdpe_ptr L ptr pml4e) pdpe ->
  bf_flag (hard_LargePage L) pdpe = false ->
  (entry_at os (pde_ptr L ptr pdpe) = None ->
   virtual_to_physical L os ptr proc dtb
   = (None, [ReadPhysical (pml4e_ptr ptr dtb) 8;
             ReadPhysical (pdpe_ptr L ptr pml4e) 8;
             ReadPhysical (pde_ptr L ptr pdpe) 8]))
  /\ (forall pde,
        present_at L os (pde_ptr L ptr pdpe) pde ->
        bf_flag (hard_LargePage L) pde = false ->
        entry_at os (pte_ptr L ptr pde) = None ->
        virtual_to_physical L os ptr proc dtb
        = (None, [ReadPhysical (pml4e_ptr ptr dtb) 8;
                  ReadPhysical (pdpe_ptr L ptr pml4e) 8;
                  ReadPhysical (pde_ptr L ptr pdpe) 8;
                  ReadPhysical (pte_ptr L ptr pde) 8])).
Proof.
  intros H1 H2 Hl2.
  split.
  - intros H3. unfold virtual_to_physical, read_le64. cbv zeta.
    rewrite (read_pml4e_present L os ptr dtb pml4e H1), bind_run.
    unfold result, trace. simpl fst. simpl snd.
    rewrite (read_pdpe_present L os ptr pml4e pdpe H2), bind_run.
    unfold result, trace. simpl fst. simpl snd. rewrite Hl2.
    rewrite (read_pde_none L os ptr pdpe H3). reflexivity.
  - intros pde [H3 Hv3] Hl3 H4. unfold virtual_to_physical, read_le64.
    cbv zeta.
    rewrite (read_pml4e_present L os ptr dtb pml4e H1), bind_run.
    unfold result, trace. simpl fst. simpl snd.
    rewrite (read_pdpe_present L os ptr pml4e pdpe H2), bind_run.
    unfold result, trace. simpl fst. simpl snd. rewrite Hl2.
    rewrite (read_pde_some L os ptr pdpe pde H3), bind_run.
    unfold result, trace. simpl fst. simpl snd. rewrite Hv3, Hl3.
    simpl negb. cbv iota.
    rewrite (read_pte_none L os ptr pde H4). reflexivity.
Qed.

Lemma failed_lower_read_unresolved_witness :
  let os := Synthetic.session Synthetic.tables_no_pd Synthetic.no_virt []
              0 0x1AA000 in
  let os' := Synthetic.session Synthetic.tables_no_pt Synthetic.no_virt []
               0 0x1AA000 in
  virtual_to_physical Synthetic.x64 os 0x1234 None Synthetic.root
  = (None, [ReadPhysical 0x1000 8; ReadPhysical 0x2000 8;
            ReadPhysical 0x3000 8])
  /\ virtual_to_physical Synthetic.x64 os' 0x1234 None Synthetic.root
     = (None, [ReadPhysical 0x1000 8; ReadPhysical 0x2000 8;
               ReadPhysical 0x3000 8; ReadPhysical 0x4008 8]).
Proof.
  intros os os'. split.
  - exact (proj1 (failed_lower_read_unresolved Synthetic.x64 os 0x1234 None
                    Synthetic.root 0x2001 0x3001
                    (conj eq_refl eq_refl) (conj eq_refl eq_refl) eq_refl)
                 eq_refl).
  - exact (proj2 (failed_lower_read_unresolved Synthetic.x64 os' 0x1234 None
                    Synthetic.root 0x2001 0x3001
                    (conj eq_refl eq_refl) (conj eq_refl eq_refl) eq_refl)
                 0x4001 (conj eq_refl eq_refl) eq_refl eq_refl).
Defined.

(** ** The two classifiers *)

(** X7: a non-present entry whose unswizzled value has the transition flag
    and not the prototype flag resolves, with no collaborator call and
    whatever the process, to the transition frame of the unswizzled value
    times 4096 plus the low 12 bits of the address; both classifiers agree
    on it. *)
Theorem transition_entry_resolved (L : mmpte_layout) (os : Os) (ptr : Z)
  (proc : option proc_t) (pte : Z) :
  frame_field (trans_PageFrameNumber L) = true ->
  bf_flag (hard_Valid L) pte = false ->
  bf_flag (soft_Prototype L) (unswizzle_pte L os pte) = false ->
  bf_flag (soft_Transition L) (unswizzle_pte L os pte) = true ->
  let frame := bf_get (trans_PageFrameNumber L) (unswizzle_pte L os pte) in
  let page := {| ntphy_ptr := frame * 4096 + ptr mod 4096;
                 ntphy_valid_page := true;
                 ntphy_zero_page := false |} in
  pte_to_physical L os ptr proc pte = (Some page, [])
  /\ prototype_pte_to_physical L os ptr pte = page.
Proof.
  intros Hf Hv Hp Ht frame page.
  assert (Hpage : physical_page (wrap64 (frame * PAGE_SIZE))
                    (bf_get virt_offset (read_le64 ptr)) = page).
  { unfold physical_page, page. f_equal.
    rewrite virt_offset_low12. unfold wrap64, PAGE_SIZE.
    pose proof (frame_field_bounds _ (unswizzle_pte L os pte) Hf) as Hb.
    fold frame in Hb.
    pose proof (Z.mod_pos_bound ptr 4096 ltac:(lia)) as Ho.
    change (2 ^ 12) with 4096.
    change (2 ^ 52) with 4503599627370496 in Hb.
    change (2 ^ 64) with 18446744073709551616.
    rewrite (Z.mod_small (frame * 4096)) by lia.
    apply Z.mod_small. lia. }
  unfold pte_to_physical, prototype_pte_to_physical.
  rewrite Hv. cbv zeta. rewrite Hp, Ht. fold frame.
  unfold ret. rewrite Hpage. split; reflexivity.
Qed.

Lemma transition_entry_resolved_witness :
  let os := Synthetic.session [] Synthetic.no_virt [] 0xFFFF000000000000
              0x1AA000 in
  pte_to_physical Synthetic.x64 os 0x1234 None 0xABCD000000005800
  = (Some (physical_page 0x5000 0x234), []).
Proof.
  intros os.
  exact (proj1 (transition_entry_resolved Synthetic.x64 os 0x1234 None
                  0xABCD000000005800 eq_refl eq_refl eq_refl eq_refl)).
Defined.

(** X8: outside the prototype and zero-value rules the full classifier is
    the terminal classifier: for an entry that is present, or whose
    unswizzled value is neither prototype-flagged nor zero, it returns what
    [prototype_pte_to_physical] returns and calls no collaborator. *)
Theorem classifiers_agree (L : mmpte_layout) (os : Os) (ptr : Z)
  (proc : option proc_t) (pte : Z) :
  prototype_entry L os pte = false ->
  bf_flag (hard_Valid L) pte = true \/ unswizzle_pte L os pte <> 0 ->
  pte_to_physical L os ptr proc pte
  = (Some (prototype_pte_to_physical L os ptr pte), []).
Proof.
  intros Hp Hnz. unfold prototype_entry in Hp.
  unfold pte_to_physical, prototype_pte_to_physical.
  destruct (bf_flag (hard_Valid L) pte) eqn:Hv; [ reflexivity | ].
  simpl in Hp. cbv zeta. rewrite Hp.
  destruct (bf_flag (soft_Transition L) (unswizzle_pte L os pte));
    [ reflexivity | ].
  destruct Hnz as [Hc | Hnz]; [ discriminate | ].
  apply Z.eqb_neq in Hnz. rewrite Hnz.
  destruct (bf_get (soft_PageFileHigh L) (unswizzle_pte L os pte) =? 0);
    reflexivity.
Qed.

Lemma classifiers_agree_witness :
  let os := Synthetic.session [] Synthetic.no_virt [] 0 0x1AA000 in
  pte_to_physical Synthetic.x64 os 0x1234 None 0x100000020
  = (Some page_fault_required, [])
  /\ pte_to_physical Synthetic.x64 os 0x1234 None 0x20
     = (Some zero_page, []).
Proof.
  intros os. split.
  - refine (classifiers_agree Synthetic.x64 os 0x1234 None 0x100000020
              eq_refl (or_intror _)).
    intros Heq. discriminate Heq.
  - refine (classifiers_agree Synthetic.x64 os 0x1234 None 0x20
              eq_refl (or_intror _)).
    intros Heq. discriminate Heq.
Defined.

(** ** Invariants of the result *)

Lemma wrap64_mod_page (z : Z) : wrap64 z mod 4096 = z mod 4096.
Proof.
  unfold wrap64. apply Z.mod_mod_divide.
  exists (2 ^ 52). reflexivity.
Qed.

Lemma physical_page_tri_state (ptr base offset : Z) :
  base mod 4096 = 0 ->
  offset mod 4096 = ptr mod 4096 ->
  tri_state ptr (physical_page base offset).
Proof.
  intros Hb Ho. left. unfold physical_page. simpl.
  split; [ reflexivity | split; [ reflexivity | split ] ].
  - unfold wrap64. apply Z.mod_pos_bound. lia.
  - rewrite wrap64_mod_page, Z.add_mod, Hb, Ho by lia.
    rewrite Z.add_0_l. apply Z.mod_mod. lia.
Qed.

Lemma frame_page_tri_state (ptr frame : Z) :
  tri_state ptr (physical_page (wrap64 (frame * PAGE_SIZE))
                   (bf_get virt_offset (read_le64 ptr))).
Proof.
  apply physical_page_tri_state.
  - rewrite wrap64_mod_page. apply Z.mod_mul. unfold PAGE_SIZE. lia.
  - rewrite virt_offset_low12. change (2 ^ 12) with 4096.
    apply Z.mod_mod. lia.
Qed.

Lemma large_page_tri_state (ptr e bits : Z) :
  12 <= bits <= 52 ->
  tri_state ptr (physical_page (Z.land e (Z.shiftl (Z.ones (52 - bits)) bits))
                   (Z.land ptr (Z.ones bits))).
Proof.
  intros Hb.
  assert (Hdiv : (4096 | 2 ^ bits)).
  { exists (2 ^ (bits - 12)). change 4096 with (2 ^ 12).
    rewrite <- Z.pow_add_r by lia. f_equal. lia. }
  assert (Hpos : 0 < 2 ^ bits) by (apply Z.pow_pos_nonneg; lia).
  apply physical_page_tri_state.
  - destruct (land_field_mask_bounds e (52 - bits) bits) as [_ Hm];
      [ lia | lia | ].
    rewrite <- (Z.mod_mod_divide _ (2 ^ bits) 4096 Hdiv).
    rewrite Hm. reflexivity.
  - rewrite Z.land_ones by lia.
    apply Z.mod_mod_divide. exact Hdiv.
Qed.

Section ResultInvariant.

Variable L : mmpte_layout.
Variable os : Os.

Lemma prototype_pte_tri_state (ptr pte : Z) :
  tri_state ptr (prototype_pte_to_physical L os ptr pte).
Proof.
  unfold prototype_pte_to_physical. cbv zeta.
  destruct (bf_flag (hard_Valid L) pte); [ apply frame_page_tri_state | ].
  destruct (bf_flag (soft_Prototype L) (unswizzle_pte L os pte));
    [ right; right; reflexivity | ].
  destruct (bf_flag (soft_Transition L) (unswizzle_pte L os pte));
    [ apply frame_page_tri_state | ].
  destruct (bf_get (soft_PageFileHigh L) (unswizzle_pte L os pte) =? 0);
    [ right; left; reflexivity | right; right; reflexivity ].
Qed.

Lemma vad_pte_tri_state (ptr : Z) (proc : option proc_t) (r : ntphy_t) :
  result (vad_pte_to_physical L os ptr proc) = Some r -> tri_state ptr r.
Proof.
  destruct proc as [p |].
  - destruct (vm_area_find (core_ os) p ptr) as [area |] eqn:Hf.
    + destruct (vm_area_span (core_ os) p area) as [sp |] eqn:Hs.
      * rewrite (vad_pte_to_physical_run L os ptr p area sp Hf Hs).
        destruct (read_virtual_with_dtb (core_ os) (kdtb p)
                    (first_proto_pte_field os area) 8) as [b1 |];
          [ | discriminate ].
        destruct (read_virtual_with_dtb (core_ os) (kdtb p)
                    (vad_pte_ptr (load64 b1) ptr sp) 8) as [b2 |];
          [ | discriminate ].
        unfold result. simpl fst. intros Hr. injection Hr as <-.
        apply prototype_pte_tri_state.
      * unfold vad_pte_to_physical, vm_area_find_call, vm_area_span_call,
          bind, ret.
        cbv beta iota. rewrite Hf. cbv beta iota. rewrite Hs. discriminate.
    + unfold vad_pte_to_physical, vm_area_find_call, bind, ret.
      cbv beta iota. rewrite Hf. discriminate.
  - unfold vad_pte_to_physical, ret.
    destruct (is_kernel_address ptr); [ discriminate | ].
    unfold result. simpl fst. intros Hr. injection Hr as <-.
    right. right. reflexivity.
Qed.

Lemma pte_tri_state (ptr : Z) (proc : option proc_t) (pte : Z) (r : ntphy_t) :
  result (pte_to_physical L os ptr proc pte) = Some r -> tri_state ptr r.
Proof.
  destruct (prototype_entry L os pte) eqn:Hp.
  - destruct (Z.eq_dec (Z.land (proto_target L os pte) vad_mask) vad_mask)
      as [Heq | Hne].
    + rewrite (pte_to_physical_vad_branch L os ptr proc pte Hp Heq).
      apply vad_pte_tri_state.
    + rewrite (pte_to_physical_pool_branch L os ptr proc pte Hp Hne).
      unfold result. simpl fst.
      destruct (read_virtual_with_dtb (core_ os) (kernel_dtb os)
                  (proto_target L os pte) 8);
        intros Hr; injection Hr as <-;
        [ apply prototype_pte_tri_state | right; right; reflexivity ].
  - unfold prototype_entry in Hp. unfold pte_to_physical.
    destruct (bf_flag (hard_Valid L) pte).
    { unfold result, ret. simpl fst. intros Hr. injection Hr as <-.
      apply frame_page_tri_state. }
    simpl in Hp. cbv zeta. rewrite Hp.
    destruct (bf_flag (soft_Transition L) (unswizzle_pte L os pte)).
    { unfold result, ret. simpl fst. intros Hr. injection Hr as <-.
      apply frame_page_tri_state. }
    destruct (unswizzle_pte L os pte =? 0); [ apply vad_pte_tri_state | ].
    destruct (bf_get (soft_PageFileHigh L) (unswizzle_pte L os pte) =? 0);
      unfold result, ret; simpl fst; intros Hr; injection Hr as <-;
      [ right; left; reflexivity | right; right; reflexivity ].
Qed.

End ResultInvariant.

Lemma virtual_to_physical_tri_state (L : mmpte_layout) (os : Os) (ptr : Z)
  (proc : option proc_t) (dtb : dtb_t) (r : ntphy_t) :
  result (virtual_to_physical L os ptr proc dtb) = Some r -> tri_state ptr r.
Proof.
  unfold virtual_to_physical. cbv zeta. rewrite result_bind.
  destruct (result (read_pml4e L os (read_le64 ptr) dtb)) as [pml4e |];
    [ | intros Hr; discriminate Hr ].
  rewrite result_bind.
  destruct (result (read_pdpe L os (read_le64 ptr) pml4e)) as [pdpe |];
    [ | intros Hr; discriminate Hr ].
  destruct (bf_flag (hard_LargePage L) pdpe).
  { intros Hr. injection Hr as <-.
    change (mask 30) with (Z.ones 30).
    change (shl64 (mask 22) 30) with (Z.shiftl (Z.ones (52 - 30)) 30).
    apply large_page_tri_state. lia. }
  rewrite result_bind.
  destruct (result (read_pde L os (read_le64 ptr) pdpe)) as [pde |];
    [ | intros Hr; discriminate Hr ].
  destruct (negb (bf_flag (hard_Valid L) pde)); [ apply pte_tri_state | ].
  destruct (bf_flag (hard_LargePage L) pde).
  { intros Hr. injection Hr as <-.
    change (mask 21) with (Z.ones 21).
    change (shl64 (mask 31) 21) with (Z.shiftl (Z.ones (52 - 21)) 21).
    apply large_page_tri_state. lia. }
  rewrite result_bind.
  destruct (result (read_pte L os (read_le64 ptr) pde)) as [pte |];
    [ apply pte_tri_state | intros Hr; discriminate Hr ].
Qed.

Lemma Os_virtual_to_physical_run (L : mmpte_layout) (os : Os)
  (proc : option proc_t) (dtb : dtb_t) (ptr : Z) :
  Os_virtual_to_physical L os proc dtb ptr
  = (match result (virtual_to_physical L os ptr proc dtb) with
     | Some r => if ntphy_valid_page r then Some (ntphy_ptr r) else None
     | None => None
     end,
     trace (virtual_to_physical L os ptr proc dtb)).
Proof.
  unfold Os_virtual_to_physical. rewrite bind_run.
  destruct (result (virtual_to_physical L os ptr proc dtb)) as [r |];
    [ destruct (ntphy_valid_page r) | ];
    unfold result, trace, ret; simpl fst; simpl snd;
    rewrite app_nil_r; reflexivity.
Qed.

Lemma Os_virtual_to_physical_some (L : mmpte_layout) (os : Os)
  (proc : option proc_t) (dtb : dtb_t) (ptr a : Z) :
  result (Os_virtual_to_physical L os proc dtb ptr) = Some a ->
  exists r,
    result (virtual_to_physical L os ptr proc dtb) = Some r
    /\ ntphy_valid_page r = true /\ ntphy_zero_page r = false
    /\ ntphy_ptr r = a
    /\ 0 <= a < 2 ^ 64 /\ a mod 4096 = ptr mod 4096.
Proof.
  rewrite Os_virtual_to_physical_run. unfold result at 1. simpl fst.
  destruct (result (virtual_to_physical L os ptr proc dtb)) as [r |] eqn:Hr;
    [ | discriminate ].
  destruct (ntphy_valid_page r) eqn:Hv; [ | discriminate ].
  intros Ha. injection Ha as <-.
  exists r.
  destruct (virtual_to_physical_tri_state L os ptr proc dtb r Hr)
    as [[_ [Hz [Hb Ho]]] | [-> | ->]]; try discriminate Hv.
  repeat split; try assumption; apply Hb.
Qed.

(** X9: a translation that returns a result returns one of exactly three
    states: a resolved 64-bit physical address (valid, not zero-page), the
    demand-zero constant, or the pagefile-required constant; the valid and
    zero-page flags are never both set. *)
Theorem translation_result_tri_state (L : mmpte_layout) (os : Os) (ptr : Z)
  (proc : option proc_t) (dtb : dtb_t) (r : ntphy_t) :
  result (virtual_to_physical L os ptr proc dtb) = Some r ->
  (ntphy_valid_page r = true /\ ntphy_zero_page r = false
   /\ 0 <= ntphy_ptr r < 2 ^ 64)
  \/ r = zero_page
  \/ r = page_fault_required.
Proof.
  intros Hr.
  destruct (virtual_to_physical_tri_state L os ptr proc dtb r Hr)
    as [[Hv [Hz [Hb _]]] | [Hz | Hp]].
  - left. repeat split; try assumption; apply Hb.
  - right. left. exact Hz.
  - right. right. exact Hp.
Qed.

Lemma translation_result_tri_state_witness :
  let os := Synthetic.session (Synthetic.tables 0x100000020)
              Synthetic.no_virt [] 0 0x1AA000 in
  result (virtual_to_physical Synthetic.x64 os 0x1234 None Synthetic.root)
  = Some page_fault_required
  /\ ((ntphy_valid_page page_fault_required = true
       /\ ntphy_zero_page page_fault_required = false
       /\ 0 <= ntphy_ptr page_fault_required < 2 ^ 64)
      \/ page_fault_required = zero_page
      \/ page_fault_required = page_fault_required).
Proof.
  intros os. split; [ reflexivity | ].
  exact (translation_result_tri_state Synthetic.x64 os 0x1234 None
           Synthetic.root page_fault_required eq_refl).
Defined.

(** X10: an address reported by [nt::Os::virtual_to_physical] is a 64-bit
    value with the same low 12 bits as the virtual address, for 4 KiB,
    2 MiB and 1 GiB mappings and transition pages alike. *)
Theorem translation_keeps_page_offset (L : mmpte_layout) (os : Os)
  (proc : option proc_t) (dtb : dtb_t) (ptr a : Z) :
  result (Os_virtual_to_physical L os proc dtb ptr) = Some a ->
  0 <= a < 2 ^ 64 /\ a mod 4096 = ptr mod 4096.
Proof.
  intros Ha.
  destruct (Os_virtual_to_physical_some L os proc dtb ptr a Ha)
    as [r [_ [_ [_ [_ [Hb Ho]]]]]].
  split; assumption.
Qed.

Lemma translation_keeps_page_offset_witness :
  let os := Synthetic.session Synthetic.tables_2m Synthetic.no_virt []
              0 0x1AA000 in
  result (Os_virtual_to_physical Synthetic.x64 os None Synthetic.root 0x1234)
  = Some 0x601234
  /\ 0 <= 0x601234 < 2 ^ 64 /\ 0x601234 mod 4096 = 0x1234 mod 4096.
Proof.
  intros os. split; [ reflexivity | ].
  exact (translation_keeps_page_offset Synthetic.x64 os None Synthetic.root
           0x1234 0x601234 eq_refl).
Defined.

(** X11: [nt::Os::virtual_to_physical] reports an address exactly when the
    translation resolved; a demand-zero and a pagefile-required translation
    both report none.  It makes the calls of the translation and no other. *)
Theorem Os_virtual_to_physical_resolved_only (L : mmpte_layout) (os : Os)
  (proc : option proc_t) (dtb : dtb_t) (ptr : Z) :
  trace (Os_virtual_to_physical L os proc dtb ptr)
  = trace (virtual_to_physical L os ptr proc dtb)
  /\ (forall a,
        result (Os_virtual_to_physical L os proc dtb ptr) = Some a
        <-> exists r,
              result (virtual_to_physical L os ptr proc dtb) = Some r
              /\ ntphy_valid_page r = true /\ ntphy_ptr r = a)
  /\ (result (virtual_to_physical L os ptr proc dtb) = Some zero_page ->
      result (Os_virtual_to_physical L os proc dtb ptr) = None)
  /\ (result (virtual_to_physical L os ptr proc dtb)
      = Some page_fault_required ->
      result (Os_virtual_to_physical L os proc dtb ptr) = None).
Proof.
  split; [ rewrite Os_virtual_to_physical_run; reflexivity | ].
  split; [ | split ].
  - intros a. split.
    + intros Ha.
      destruct (Os_virtual_to_physical_some L os proc dtb ptr a Ha)
        as [r [Hr [Hv [_ [Hp _]]]]].
      exists r. repeat split; assumption.
    + intros [r [Hr [Hv Hp]]].
      rewrite Os_virtual_to_physical_run, Hr, Hv, Hp. reflexivity.
  - intros Hr. rewrite Os_virtual_to_physical_run, Hr. reflexivity.
  - intros Hr. rewrite Os_virtual_to_physical_run, Hr. reflexivity.
Qed.

Lemma Os_virtual_to_physical_resolved_only_witness :
  let os := Synthetic.session (Synthetic.tables 0x20) Synthetic.no_virt []
              0 0x1AA000 in
  result (virtual_to_physical Synthetic.x64 os 0x1234 None Synthetic.root)
  = Some zero_page
  /\ result (Os_virtual_to_physical Synthetic.x64 os None Synthetic.root
               0x1234) = None.
Proof.
  intros os. split; [ reflexivity | ].
  exact (proj1 (proj2 (proj2 (Os_virtual_to_physical_resolved_only
                                Synthetic.x64 os None Synthetic.root 0x1234)))
               eq_refl).
Defined.

(** ** Page transfers *)

Section Transfers.

Variable L : mmpte_layout.
Variable os : Os.

Lemma write_page_run (ptr : Z) (src : list byte) (proc : option proc_t)
  (dtb : dtb_t) :
  write_page L os ptr src proc dtb
  = match result (virtual_to_physical L os ptr proc dtb) with
    | Some r =>
        if ntphy_valid_page r then
          (write_physical (core_ os) (ntphy_ptr r) src PAGE_SIZE,
           trace (virtual_to_physical L os ptr proc dtb)
           ++ [WritePhysical (ntphy_ptr r) src PAGE_SIZE])
        else if ntphy_zero_page r then
          (is_zero src PAGE_SIZE,
           trace (virtual_to_physical L os ptr proc dtb))
        else (false, trace (virtual_to_physical L os ptr proc dtb))
    | None => (false, trace (virtual_to_physical L os ptr proc dtb))
    end.
Proof.
  unfold write_page. rewrite bind_run.
  destruct (result (virtual_to_physical L os ptr proc dtb)) as [r |];
    [ destruct (ntphy_valid_page r); [ | destruct (ntphy_zero_page r) ] | ];
    unfold result, trace, ret, memory_write_physical; simpl fst; simpl snd;
    rewrite ?app_nil_r; reflexivity.
Qed.

Lemma read_page_run (ptr : Z) (proc : option proc_t) (dtb : dtb_t) :
  read_page L os ptr proc dtb
  = match result (virtual_to_physical L os ptr proc dtb) with
    | Some r =>
        if ntphy_zero_page r then
          (Some (repeat x00 (Z.to_nat PAGE_SIZE)),
           trace (virtual_to_physical L os ptr proc dtb))
        else if ntphy_valid_page r then
          (read_physical (core_ os) (ntphy_ptr r) PAGE_SIZE,
           trace (virtual_to_physical L os ptr proc dtb)
           ++ [ReadPhysical (ntphy_ptr r) PAGE_SIZE])
        else (None, trace (virtual_to_physical L os ptr proc dtb))
    | None => (None, trace (virtual_to_physical L os ptr proc dtb))
    end.
Proof.
  unfold read_page. rewrite bind_run.
  destruct (result (virtual_to_physical L os ptr proc dtb)) as [r |];
    [ destruct (ntphy_zero_page r); [ | destruct (ntphy_valid_page r) ] | ];
    unfold result, trace, ret, memory_read_physical; simpl fst; simpl snd;
    rewrite ?app_nil_r; reflexivity.
Qed.

(** What the translation leaves when it reports no address and is not
    demand-zero. *)
Lemma unresolved_cases (ptr : Z) (proc : option proc_t) (dtb : dtb_t) :
  result (Os_virtual_to_physical L os proc dtb ptr) = None ->
  result (virtual_to_physical L os ptr proc dtb) <> Some zero_page ->
  result (virtual_to_physical L os ptr proc dtb) = None
  \/ result (virtual_to_physical L os ptr proc dtb)
     = Some page_fault_required.
Proof.
  rewrite Os_virtual_to_physical_run. unfold result at 1. simpl fst.
  destruct (result (virtual_to_physical L os ptr proc dtb)) as [r |] eqn:Hr;
    [ | intros; left; reflexivity ].
  intros Hn Hz. right.
  destruct (virtual_to_physical_tri_state L os ptr proc dtb r Hr)
    as [[Hv _] | [-> | ->]].
  - rewrite Hv in Hn. discriminate.
  - exfalso. apply Hz. reflexivity.
  - reflexivity.
Qed.

End Transfers.

(** X12: when the address translates, [write_page] issues exactly one
    physical write, as its last call: the whole source, PAGE_SIZE bytes, at
    the address [nt::Os::virtual_to_physical] reports; its answer is the
    answer of that write. *)
Theorem write_page_writes_translated_address (L : mmpte_layout) (os : Os)
  (ptr : Z) (src : list byte) (proc : option proc_t) (dtb : dtb_t) (a : Z) :
  result (Os_virtual_to_physical L os proc dtb ptr) = Some a ->
  write_page L os ptr src proc dtb
  = (write_physical (core_ os) a src PAGE_SIZE,
     trace (virtual_to_physical L os ptr proc dtb)
     ++ [WritePhysical a src PAGE_SIZE]).
Proof.
  intros Ha.
  destruct (Os_virtual_to_physical_some L os proc dtb ptr a Ha)
    as [r [Hr [Hv [_ [Hp _]]]]].
  rewrite write_page_run, Hr, Hv, Hp. reflexivity.
Qed.

Lemma write_page_writes_translated_address_witness :
  let os := Synthetic.paged_session (Synthetic.tables 0x5001) in
  result (Os_virtual_to_physical Synthetic.x64 os None Synthetic.root 0x1234)
  = Some 0x5234
  /\ write_page Synthetic.x64 os 0x1234 Synthetic.dirty_buffer None
       Synthetic.root
     = (false,
        [ReadPhysical 0x1000 8; ReadPhysical 0x2000 8; ReadPhysical 0x3000 8;
         ReadPhysical 0x4008 8;
         WritePhysical 0x5234 Synthetic.dirty_buffer 4096]).
Proof.
  intros os. split; [ reflexivity | ].
  exact (write_page_writes_translated_address Synthetic.x64 os 0x1234
           Synthetic.dirty_buffer None Synthetic.root 0x5234 eq_refl).
Defined.

(** X13: when the translation reports no address and is not demand-zero
    (the walk stopped, a lookup or read failed, or the page is in the
    pagefile), [write_page] and [read_page] both fail, and neither touches
    physical memory beyond the calls of the translation. *)
Theorem unresolved_transfer_fails (L : mmpte_layout) (os : Os) (ptr : Z)
  (src : list byte) (proc : option proc_t) (dtb : dtb_t) :
  result (Os_virtual_to_physical L os proc dtb ptr) = None ->
  result (virtual_to_physical L os ptr proc dtb) <> Some zero_page ->
  write_page L os ptr src proc dtb
  = (false, trace (virtual_to_physical L os ptr proc dtb))
  /\ read_page L os ptr proc dtb
     = (None, trace (virtual_to_physical L os ptr proc dtb)).
Proof.
  intros Hn Hz.
  rewrite write_page_run, read_page_run.
  destruct (unresolved_cases L os ptr proc dtb Hn Hz) as [Hr | Hr];
    rewrite Hr; split; reflexivity.
Qed.

Lemma unresolved_transfer_fails_witness :
  let os := Synthetic.session (Synthetic.tables 0x100000020)
              Synthetic.no_virt [] 0 0x1AA000 in
  write_page Synthetic.x64 os 0x1234 Synthetic.zero_buffer None
    Synthetic.root
  = (false, [ReadPhysical 0x1000 8; ReadPhysical 0x2000 8;
             ReadPhysical 0x3000 8; ReadPhysical 0x4008 8])
  /\ read_page Synthetic.x64 os 0x1234 None Synthetic.root
     = (None, [ReadPhysical 0x1000 8; ReadPhysical 0x2000 8;
               ReadPhysical 0x3000 8; ReadPhysical 0x4008 8]).
Proof.
  intros os.
  refine (unresolved_transfer_fails Synthetic.x64 os 0x1234
            Synthetic.zero_buffer None Synthetic.root eq_refl _).
  intros Heq. discriminate Heq.
Defined.

(** X14: when the address translates, [read_page] issues exactly one more
    physical read, of PAGE_SIZE bytes at the address
    [nt::Os::virtual_to_physical] reports, and delivers what that read
    answers. *)
Theorem read_page_reads_translated_address (L : mmpte_layout) (os : Os)
  (ptr : Z) (proc : option proc_t) (dtb : dtb_t) (a : Z) :
  result (Os_virtual_to_physical L os proc dtb ptr) = Some a ->
  read_page L os ptr proc dtb
  = (read_physical (core_ os) a PAGE_SIZE,
     trace (virtual_to_physical L os ptr proc dtb)
     ++ [ReadPhysical a PAGE_SIZE]).
Proof.
  intros Ha.
  destruct (Os_virtual_to_physical_some L os proc dtb ptr a Ha)
    as [r [Hr [Hv [Hz [Hp _]]]]].
  rewrite read_page_run, Hr, Hz, Hv, Hp. reflexivity.
Qed.

Lemma read_page_reads_translated_address_witness :
  let os := Synthetic.paged_session (Synthetic.tables 0x5001) in
  result (Os_virtual_to_physical Synthetic.x64 os None Synthetic.root 0x1234)
  = Some 0x5234
  /\ read_page Synthetic.x64 os 0x1234 None Synthetic.root
     = (Some (repeat "*"%byte (Z.to_nat 4096)),
        [ReadPhysical 0x1000 8; ReadPhysical 0x2000 8; ReadPhysical 0x3000 8;
         ReadPhysical 0x4008 8; ReadPhysical 0x5234 4096]).
Proof.
  intros os. split; [ reflexivity | ].
  exact (read_page_reads_translated_address Synthetic.x64 os 0x1234 None
           Synthetic.root 0x5234 eq_refl).
Defined.

(** X15: [read_page] of a demand-zero address succeeds with a page of
    exactly PAGE_SIZE zero bytes and reads no physical page; writing that
    page back with [write_page] succeeds and writes nothing. *)
Theorem demand_zero_read_write_round_trip (L : mmpte_layout) (os : Os)
  (ptr : Z) (proc : option proc_t) (dtb : dtb_t) :
  result (virtual_to_physical L os ptr proc dtb) = Some zero_page ->
  exists page,
    read_page L os ptr proc dtb
    = (Some page, trace (virtual_to_physical L os ptr proc dtb))
    /\ Z.of_nat (length page) = PAGE_SIZE
    /\ Forall (fun b => b = x00) page
    /\ write_page L os ptr page proc dtb
       = (true, trace (virtual_to_physical L os ptr proc dtb)).
Proof.
  intros Hr. exists (repeat x00 (Z.to_nat PAGE_SIZE)).
  assert (Hlen : Z.of_nat (length (repeat x00 (Z.to_nat PAGE_SIZE)))
                 = PAGE_SIZE).
  { rewrite repeat_length. reflexivity. }
  assert (Hall : Forall (fun b => b = x00) (repeat x00 (Z.to_nat PAGE_SIZE))).
  { apply Forall_forall. intros b Hin. exact (repeat_spec _ _ _ Hin). }
  split; [ rewrite read_page_run, Hr; reflexivity | ].
  split; [ exact Hlen | split; [ exact Hall | ] ].
  pose proof (proj2 (is_zero_page_spec _ Hlen) Hall) as Hz.
  rewrite write_page_run, Hr. simpl ntphy_valid_page. simpl ntphy_zero_page.
  cbv iota. rewrite Hz. reflexivity.
Qed.

Lemma demand_zero_read_write_round_trip_witness :
  let os := Synthetic.session (Synthetic.tables 0x20) Synthetic.no_virt []
              0 0x1AA000 in
  result (virtual_to_physical Synthetic.x64 os 0x1234 None Synthetic.root)
  = Some zero_page
  /\ exists page,
       read_page Synthetic.x64 os 0x1234 None Synthetic.root
       = (Some page,
          trace (virtual_to_physical Synthetic.x64 os 0x1234 None
                   Synthetic.root))
       /\ Z.of_nat (length page) = PAGE_SIZE
       /\ Forall (fun b => b = x00) page
       /\ write_page Synthetic.x64 os 0x1234 page None Synthetic.root
          = (true,
             trace (virtual_to_physical Synthetic.x64 os 0x1234 None
                      Synthetic.root)).
Proof.
  intros os. split; [ reflexivity | ].
  exact (demand_zero_read_write_round_trip Synthetic.x64 os 0x1234 None
           Synthetic.root eq_refl).
Defined.

(** X16: whatever the guest memory holds, [read_page] makes at most nine
    collaborator calls, at most two of them virtual reads, and never writes
    physical memory; [write_page] makes at most nine calls and at most one
    physical write. *)
Theorem page_transfers_bounded (L : mmpte_layout) (os : Os) (ptr : Z)
  (src : list byte) (proc : option proc_t) (dtb : dtb_t) :
  within 9 2 (trace (read_page L os ptr proc dtb))
  /\ (length (trace (write_page L os ptr src proc dtb)) <= 9)%nat
  /\ (length (filter is_physical_write
                (trace (write_page L os ptr src proc dtb))) <= 1)%nat.
Proof.
  pose proof (virtual_to_physical_within L os ptr proc dtb) as Hw.
  assert (H1 : forall a n, within 1 0 [ReadPhysical a n]).
  { intros a n. unfold within, virtual_reads. simpl. repeat split; lia. }
  split; [ | split ].
  - rewrite read_page_run.
    destruct (result (virtual_to_physical L os ptr proc dtb)) as [r |];
      [ destruct (ntphy_zero_page r); [ | destruct (ntphy_valid_page r) ] | ];
      unfold trace at 1; simpl snd;
      try (apply (within_mono 8 2); [ exact Hw | lia | lia ]).
    apply (within_app 8 2 1 0); [ exact Hw | apply H1 ].
  - destruct Hw as [Hl _]. rewrite write_page_run.
    destruct (result (virtual_to_physical L os ptr proc dtb)) as [r |];
      [ destruct (ntphy_valid_page r); [ | destruct (ntphy_zero_page r) ] | ];
      unfold trace at 1; simpl snd; rewrite ?length_app; simpl; lia.
  - destruct Hw as [_ [_ Hnw]]. rewrite write_page_run.
    assert (Hnone : filter is_physical_write
                      (trace (virtual_to_physical L os ptr proc dtb)) = []).
    { unfold no_physical_write in Hnw. rewrite forallb_forall in Hnw.
      induction (trace (virtual_to_physical L os ptr proc dtb)) as [| e t IH];
        [ reflexivity | ].
      simpl. pose proof (Hnw e (or_introl eq_refl)) as He.
      apply negb_true_iff in He. rewrite He.
      apply IH. intros x Hx. apply Hnw. right. exact Hx. }
    destruct (result (virtual_to_physical L os ptr proc dtb)) as [r |];
      [ destruct (ntphy_valid_page r); [ | destruct (ntphy_zero_page r) ] | ];
      unfold trace at 1; simpl snd; rewrite ?filter_app, ?Hnone; simpl; lia.
Qed.

(** ** The descriptor branch, continued *)

(** X17: with a process, a failed region lookup or a region without a span
    ends the descriptor branch without a result and before any memory is
    read; and every call the branch makes is a lookup for that process or an
    8-byte virtual read under the process's own kernel table base: it makes
    no physical read and no write. *)
Theorem descriptor_lookup_failure_unresolved (L : mmpte_layout) (os : Os)
  (ptr : Z) (p : proc_t) :
  (vm_area_find (core_ os) p ptr = None ->
   vad_pte_to_physical L os ptr (Some p) = (None, [VmAreaFind p ptr]))
  /\ (forall area,
        vm_area_find (core_ os) p ptr = Some area ->
        vm_area_span (core_ os) p area = None ->
        vad_pte_to_physical L os ptr (Some p)
        = (None, [VmAreaFind p ptr; VmAreaSpan p area]))
  /\ Forall (descriptor_call p) (trace (vad_pte_to_physical L os ptr (Some p))).
Proof.
  assert (Hnone : vm_area_find (core_ os) p ptr = None ->
    vad_pte_to_physical L os ptr (Some p) = (None, [VmAreaFind p ptr])).
  { intros Hf. unfold vad_pte_to_physical, vm_area_find_call, bind, ret.
    cbv beta iota. rewrite Hf. reflexivity. }
  assert (Hspan : forall area,
    vm_area_find (core_ os) p ptr = Some area ->
    vm_area_span (core_ os) p area = None ->
    vad_pte_to_physical L os ptr (Some p)
    = (None, [VmAreaFind p ptr; VmAreaSpan p area])).
  { intros area Hf Hs.
    unfold vad_pte_to_physical, vm_area_find_call, vm_area_span_call,
      bind, ret.
    cbv beta iota. rewrite Hf. cbv beta iota. rewrite Hs. reflexivity. }
  split; [ exact Hnone | split; [ exact Hspan | ] ].
  destruct (vm_area_find (core_ os) p ptr) as [area |] eqn:Hf.
  - destruct (vm_area_span (core_ os) p area) as [sp |] eqn:Hs.
    + rewrite (vad_pte_to_physical_run L os ptr p area sp Hf Hs).
      destruct (read_virtual_with_dtb (core_ os) (kdtb p)
                  (first_proto_pte_field os area) 8);
        unfold trace; simpl snd;
        repeat (apply Forall_cons; [ simpl; auto | ]); apply Forall_nil.
    + rewrite (Hspan area eq_refl Hs). unfold trace. simpl snd.
      repeat (apply Forall_cons; [ simpl; auto | ]). apply Forall_nil.
  - rewrite (Hnone eq_refl). unfold trace. simpl snd.
    repeat (apply Forall_cons; [ simpl; auto | ]). apply Forall_nil.
Qed.

Lemma descriptor_lookup_failure_unresolved_witness :
  let os := Synthetic.session [] Synthetic.no_virt Synthetic.region
              0 0x1AA000 in
  vad_pte_to_physical Synthetic.x64 os 0x9234 (Some Synthetic.proc4)
  = (None, [VmAreaFind Synthetic.proc4 0x9234])
  /\ vad_pte_to_physical Synthetic.x64 Synthetic.orphan_session 0x1234
       (Some Synthetic.proc4)
     = (None, [VmAreaFind Synthetic.proc4 0x1234;
               VmAreaSpan Synthetic.proc4 {| area_id := 7 |}]).
Proof.
  intros os. split.
  - exact (proj1 (descriptor_lookup_failure_unresolved Synthetic.x64 os
                    0x9234 Synthetic.proc4) eq_refl).
  - exact (proj1 (proj2 (descriptor_lookup_failure_unresolved Synthetic.x64
                           Synthetic.orphan_session 0x1234 Synthetic.proc4))
                 {| area_id := 7 |} eq_refl eq_refl).
Defined.

(** X18: for an address at or above the start of its region, the prototype
    entry the descriptor branch reads is the region's first prototype entry
    plus 8 bytes per whole page between the region start and the address
    (the sum taken modulo 2^64); addresses of one page share an entry. *)
Theorem vad_pte_ptr_page_index (first_proto_pte ptr : Z) (area_span : span_t) :
  0 <= span_addr area_span <= ptr ->
  ptr < 2 ^ 64 ->
  vad_pte_ptr first_proto_pte ptr area_span
  = (first_proto_pte + 8 * ((ptr - span_addr area_span) / 4096)) mod 2 ^ 64.
Proof.
  intros Hs Hp. unfold vad_pte_ptr, wrap64, PAGE_SIZE, sizeof_MMPTE.
  change (2 ^ 64) with 18446744073709551616 in *.
  rewrite (Z.mod_small (ptr - span_addr area_span)) by lia.
  assert (Hq : 0 <= (ptr - span_addr area_span) / 4096 < 4503599627370496).
  { split; [ apply Z.div_pos; lia | apply Z.div_lt_upper_bound; lia ]. }
  rewrite (Z.mod_small (_ * 8)) by lia.
  f_equal. lia.
Qed.

Lemma vad_pte_ptr_page_index_witness :
  vad_pte_ptr 0xFFFFC00000000000 0x2234
    {| span_addr := 0x1000; span_size := 0x2000 |}
  = 0xFFFFC00000000008.
Proof.
  refine (vad_pte_ptr_page_index 0xFFFFC00000000000 0x2234
            {| span_addr := 0x1000; span_size := 0x2000 |} _ _);
    simpl; lia.
Defined.

(** ** Unswizzle and the zero test *)

(** X19: for any limit mask, unswizzling only clears bits: a bit set in the
    result is set in the entry, and a bit of the low 64 outside the mask is
    kept as it is. *)
Theorem unswizzle_clears_only_masked_bits (L : mmpte_layout) (os : Os)
  (pte i : Z) :
  0 <= i < 64 ->
  (Z.testbit (unswizzle_pte L os pte) i = true -> Z.testbit pte i = true)
  /\ (Z.testbit (PhysicalMemoryLimitMask_ os) i = false ->
      Z.testbit (unswizzle_pte L os pte) i = Z.testbit pte i).
Proof.
  intros Hi. unfold unswizzle_pte, not64.
  destruct (negb (PhysicalMemoryLimitMask_ os =? 0)
            && negb (bf_flag (soft_SwizzleBit L) pte)).
  - rewrite Z.land_spec, Z.lxor_spec, Z.testbit_ones by lia.
    destruct (Z.leb_spec 0 i); [ | lia ].
    destruct (Z.ltb_spec i 64); [ simpl | lia ].
    split.
    + intros Hb. apply andb_true_iff in Hb. apply Hb.
    + intros Hm. rewrite Hm. simpl. apply andb_true_r.
  - split; [ intros Hb; exact Hb | reflexivity ].
Qed.

Lemma unswizzle_clears_only_masked_bits_witness :
  let os := Synthetic.session [] Synthetic.no_virt [] 0x00FF000000000000
              0x1AA000 in
  unswizzle_pte Synthetic.x64 os 0xABCD000000000400 = 0xAB00000000000400
  /\ Z.testbit (unswizzle_pte Synthetic.x64 os 0xABCD000000000400) 63
     = Z.testbit 0xABCD000000000400 63.
Proof.
  intros os. split; [ reflexivity | ].
  refine (proj2 (unswizzle_clears_only_masked_bits Synthetic.x64 os
                   0xABCD000000000400 63 _) eq_refl).
  lia.
Defined.

(** X20: [is_zero] inspects exactly the first [size] bytes of the buffer:
    it answers whether all of them are zero, whatever follows them; for
    [size] 0 it answers true. *)
Theorem is_zero_inspects_prefix (vptr : list byte) (size : Z) :
  0 <= size <= Z.of_nat (length vptr) ->
  is_zero vptr size
  = forallb (fun b => Byte.eqb b x00) (firstn (Z.to_nat size) vptr).
Proof.
  intros Hsize. unfold is_zero.
  assert (Hn : (Z.to_nat size <= length vptr)%nat) by lia.
  generalize dependent (Z.to_nat size). clear Hsize size. intros n Hn.
  apply eq_true_iff_eq.
  rewrite is_zero_from_spec, forallb_forall. split.
  - intros Hall b Hin.
    destruct (In_nth _ _ x00 Hin) as [j [Hj Hb]].
    rewrite length_firstn in Hj. rewrite nth_firstn in Hb.
    destruct (Nat.ltb_spec j n) as [Hlt | Hge]; [ | lia ].
    rewrite <- Hb, Hall by lia. reflexivity.
  - intros Hall j Hj.
    assert (Hin : In (nth j vptr x00) (firstn n vptr)).
    { replace (nth j vptr x00) with (nth j (firstn n vptr) x00).
      - apply nth_In. rewrite length_firstn. lia.
      - rewrite nth_firstn.
        destruct (Nat.ltb_spec j n); [ reflexivity | lia ]. }
    apply Byte.byte_dec_bl. apply Hall. exact Hin.
Qed.

Lemma is_zero_inspects_prefix_witness :
  is_zero [x00; x00; x01] 2 = true
  /\ is_zero [x00; x00; x01] 3 = false
  /\ is_zero [x01] 0 = true.
Proof.
  split; [ | split ].
  - refine (is_zero_inspects_prefix [x00; x00; x01] 2 _). simpl. lia.
  - refine (is_zero_inspects_prefix [x00; x00; x01] 3 _). simpl. lia.
  - refine (is_zero_inspects_prefix [x01] 0 _). simpl. lia.
Defined.

(** ** The directory-table base *)

(** X21: the walk uses the caller's directory-table base only through its
    bits 12..51: two bases that differ in their low 12 or high 12 bits only
    give the same translation, call for call. *)
Theorem walk_ignores_dtb_flag_bits (L : mmpte_layout) (os : Os) (ptr : Z)
  (proc : option proc_t) (dtb dtb' : dtb_t) :
  Z.land (val dtb) 0x000FFFFFFFFFF000 = Z.land (val dtb') 0x000FFFFFFFFFF000 ->
  virtual_to_physical L os ptr proc dtb
  = virtual_to_physical L os ptr proc dtb'.
Proof.
  intros Hbase.
  assert (Hptr : pml4e_ptr (read_le64 ptr) dtb = pml4e_ptr (read_le64 ptr) dtb').
  { unfold pml4e_ptr.
    change (shl64 (mask 40) 12) with 0x000FFFFFFFFFF000.
    rewrite Hbase. reflexivity. }
  unfold virtual_to_physical, read_pml4e. cbv zeta.
  rewrite Hptr. reflexivity.
Qed.

Lemma walk_ignores_dtb_flag_bits_witness :
  let os := Synthetic.session (Synthetic.tables 0x5001) Synthetic.no_virt []
              0 0x1AA000 in
  virtual_to_physical Synthetic.x64 os 0x1234 None
    {| val := 0x8000000000001005 |}
  = virtual_to_physical Synthetic.x64 os 0x1234 None Synthetic.root.
Proof.
  intros os.
  exact (walk_ignores_dtb_flag_bits Synthetic.x64 os 0x1234 None
           {| val := 0x8000000000001005 |} Synthetic.root eq_refl).
Defined.
